(** * VisualisationContainer: a model of src/visualisations/visualisationcontainer.cpp

    The container is a QGraphicsView that hosts the visualisation scene,
    an overlay, a repaint timer and a settings menu.  Every method of the
    class is a short sequence of calls on its collaborators (the widget
    itself, the scene, the overlay, the settings store, the timer and the
    audio engine).  The model keeps, for each collaborator, the part of its
    state that the container reads or writes, and turns every method into
    a function on that state.  Two operations of the C++ code have no
    defined result: the integer division [1000 / fps_] when [fps_] is zero,
    and the call through [engine_] when the pointer is null.  Methods that
    contain one of them return an [Outcome]. *)

From Stdlib Require Import ZArith QArith Lia List Bool.
From stdpp Require Import base option list gmap strings.

Open Scope Z_scope.

(** ** Values of the toolkit *)

(** [QSize] and [QRect] as the code builds them: [QRect(QPoint(x, y), size)]. *)
Record QSize := { width : Z; height : Z }.

Record QRect := { rect_x : Z; rect_y : Z; rect_size : QSize }.

Definition QByteArray := string.

(** [qreal] is an IEEE double.  The code only compares it with [0.5], and
    [operator<] on doubles looks at the value alone: a rational number, an
    infinity, or not-a-number (on which every comparison is false). *)
Inductive qreal :=
  | Finite (q : Q)
  | Infinite (negative : bool)
  | NaN.

Definition qreal_lt (a b : qreal) : bool :=
  match a, b with
  | NaN, _ | _, NaN => false
  | Finite p, Finite q => match (p ?= q)%Q with Lt => true | _ => false end
  | Finite _, Infinite negative => negb negative
  | Infinite negative, Finite _ => negative
  | Infinite n1, Infinite n2 => n1 && negb n2
  end.

Definition qreal_ge (a b : qreal) : bool :=
  match a, b with
  | NaN, _ | _, NaN => false
  | Finite p, Finite q => match (p ?= q)%Q with Lt => false | _ => true end
  | Finite _, Infinite negative => negative
  | Infinite negative, Finite _ => negb negative
  | Infinite n1, Infinite n2 => negb n1 || n2
  end.

Definition qreal_zero : qreal := Finite 0%Q.

Definition qreal_half : qreal := Finite (1 # 2)%Q.

(** [Qt::CursorShape], the shapes the model needs. *)
Inductive CursorShape := ArrowCursor | BlankCursor.

(** [Qt::WindowStates] is a set of flags stored in an int. *)
Definition WindowNoState : Z := 0.

Definition WindowMinimized : Z := 1.

Definition WindowMaximized : Z := 2.

Definition WindowFullScreen : Z := 4.

Definition WindowActive : Z := 8.

(** A [QVariant] of the settings store: an int or a byte array. *)
Inductive QVariant :=
  | VInt (i : Z)
  | VByteArray (b : QByteArray).

(** [QSettings]: a key-value store; [beginGroup] selects the group that
    qualifies every key, so a key is a (group, name) pair. *)
Abbreviation QSettings := (gmap (string * string) QVariant).

(** [QBasicTimer]: [None] when stopped, [Some msec] after
    [start(msec, this)], with the interval the container asked for.
    [start] on a running timer restarts it. *)
Definition QBasicTimer := option Z.

Definition QBasicTimer_start (msec : Z) (t : QBasicTimer) : QBasicTimer := Some msec.

Definition QBasicTimer_stop (t : QBasicTimer) : QBasicTimer := None.

(** An engine object, known by its address.  A [GstEngine*] is an
    [option GstEngine]: [None] for the null pointer, [Some e] for a pointer
    to [e]. *)
Definition GstEngine := nat.

(** The two calls the container makes on an engine.  The consumer is
    always the scene [vis_], so it is left out. *)
Inductive EngineCall :=
  | AddBufferConsumer (e : GstEngine)
  | RemoveBufferConsumer (e : GstEngine).

(** What the toolkit computes and this file only passes on: the opaque
    blob of [saveGeometry()] (from the size and the window state of the
    widget), its inverse [restoreGeometry()] ([None] when the blob is
    rejected), and the conversions of a [QVariant] to a type it does not
    hold. *)
Class Toolkit := {
  saveGeometry : QSize -> Z -> QByteArray;
  restoreGeometry : QByteArray -> option (QSize * Z);
  QByteArray_toInt : QByteArray -> Z;
  QByteArray_number : Z -> QByteArray
}.

(** ** Undefined behaviour *)

Inductive Fault := DivisionByZero | NullDereference.

Inductive Outcome (A : Type) :=
  | Ok (a : A)
  | Undefined (why : Fault).

Arguments Ok {A} a.

Arguments Undefined {A} why.

Definition bind {A B} (m : Outcome A) (k : A -> Outcome B) : Outcome B :=
  match m with
  | Ok a => k a
  | Undefined why => Undefined why
  end.

(** C++ [int / int]: truncation towards zero, undefined for a zero divisor. *)
Definition int_div (a b : Z) : Outcome Z :=
  if b =? 0 then Undefined DivisionByZero else Ok (a ÷ b).

Definition INT_MIN : Z := - 2 ^ 31.

Definition INT_MAX : Z := 2 ^ 31 - 1.

Definition is_int (z : Z) : Prop := INT_MIN <= z <= INT_MAX.

(** ** The container *)

Definition kSettingsGroup : string := "Visualisations".

Definition kDefaultWidth : Z := 828.

Definition kDefaultHeight : Z := 512.

Definition kDefaultFps : Z := 35.

Record VisualisationContainer := {
  (* members of the class *)
  engine_ : option GstEngine;
  fps_ : Z;
  update_timer_ : QBasicTimer;
  (* the widget itself: isVisible(), size(), windowState(), cursor, scene() *)
  isVisible : bool;
  widget_size : QSize;
  windowState : Z;
  cursor : option CursorShape;
  scene_installed : bool;
  (* vis_, overlay_ and overlay_proxy_ *)
  vis_sceneRect : QRect;
  overlay_size : QSize;
  overlay_proxy_opacity : qreal;
  (* the application's settings store *)
  settings : QSettings;
  (* calls received by the audio engines, most recent first *)
  engine_calls : list EngineCall
}.

Definition set_engine_ v (c : VisualisationContainer) :=
  {| engine_ := v; fps_ := fps_ c; update_timer_ := update_timer_ c;
     isVisible := isVisible c; widget_size := widget_size c;
     windowState := windowState c; cursor := cursor c;
     scene_installed := scene_installed c; vis_sceneRect := vis_sceneRect c;
     overlay_size := overlay_size c;
     overlay_proxy_opacity := overlay_proxy_opacity c;
     settings := settings c; engine_calls := engine_calls c |}.

Definition set_fps_ v (c : VisualisationContainer) :=
  {| engine_ := engine_ c; fps_ := v; update_timer_ := update_timer_ c;
     isVisible := isVisible c; widget_size := widget_size c;
     windowState := windowState c; cursor := cursor c;
     scene_installed := scene_installed c; vis_sceneRect := vis_sceneRect c;
     overlay_size := overlay_size c;
     overlay_proxy_opacity := overlay_proxy_opacity c;
     settings := settings c; engine_calls := engine_calls c |}.

Definition set_update_timer_ v (c : VisualisationContainer) :=
  {| engine_ := engine_ c; fps_ := fps_ c; update_timer_ := v;
     isVisible := isVisible c; widget_size := widget_size c;
     windowState := windowState c; cursor := cursor c;
     scene_installed := scene_installed c; vis_sceneRect := vis_sceneRect c;
     overlay_size := overlay_size c;
     overlay_proxy_opacity := overlay_proxy_opacity c;
     settings := settings c; engine_calls := engine_calls c |}.

Definition set_isVisible v (c : VisualisationContainer) :=
  {| engine_ := engine_ c; fps_ := fps_ c; update_timer_ := update_timer_ c;
     isVisible := v; widget_size := widget_size c;
     windowState := windowState c; cursor := cursor c;
     scene_installed := scene_installed c; vis_sceneRect := vis_sceneRect c;
     overlay_size := overlay_size c;
     overlay_proxy_opacity := overlay_proxy_opacity c;
     settings := settings c; engine_calls := engine_calls c |}.

Definition set_widget_size v (c : VisualisationContainer) :=
  {| engine_ := engine_ c; fps_ := fps_ c; update_timer_ := update_timer_ c;
     isVisible := isVisible c; widget_size := v;
     windowState := windowState c; cursor := cursor c;
     scene_installed := scene_installed c; vis_sceneRect := vis_sceneRect c;
     overlay_size := overlay_size c;
     overlay_proxy_opacity := overlay_proxy_opacity c;
     settings := settings c; engine_calls := engine_calls c |}.

Definition set_windowState v (c : VisualisationContainer) :=
  {| engine_ := engine_ c; fps_ := fps_ c; update_timer_ := update_timer_ c;
     isVisible := isVisible c; widget_size := widget_size c;
     windowState := v; cursor := cursor c;
     scene_installed := scene_installed c; vis_sceneRect := vis_sceneRect c;
     overlay_size := overlay_size c;
     overlay_proxy_opacity := overlay_proxy_opacity c;
     settings := settings c; engine_calls := engine_calls c |}.

Definition set_cursor v (c : VisualisationContainer) :=
  {| engine_ := engine_ c; fps_ := fps_ c; update_timer_ := update_timer_ c;
     isVisible := isVisible c; widget_size := widget_size c;
     windowState := windowState c; cursor := v;
     scene_installed := scene_installed c; vis_sceneRect := vis_sceneRect c;
     overlay_size := overlay_size c;
     overlay_proxy_opacity := overlay_proxy_opacity c;
     settings := settings c; engine_calls := engine_calls c |}.

Definition set_scene_installed v (c : VisualisationContainer) :=
  {| engine_ := engine_ c; fps_ := fps_ c; update_timer_ := update_timer_ c;
     isVisible := isVisible c; widget_size := widget_size c;
     windowState := windowState c; cursor := cursor c;
     scene_installed := v; vis_sceneRect := vis_sceneRect c;
     overlay_size := overlay_size c;
     overlay_proxy_opacity := overlay_proxy_opacity c;
     settings := settings c; engine_calls := engine_calls c |}.

Definition set_vis_sceneRect v (c : VisualisationContainer) :=
  {| engine_ := engine_ c; fps_ := fps_ c; update_timer_ := update_timer_ c;
     isVisible := isVisible c; widget_size := widget_size c;
     windowState := windowState c; cursor := cursor c;
     scene_installed := scene_installed c; vis_sceneRect := v;
     overlay_size := overlay_size c;
     overlay_proxy_opacity := overlay_proxy_opacity c;
     settings := settings c; engine_calls := engine_calls c |}.

Definition set_overlay_size v (c : VisualisationContainer) :=
  {| engine_ := engine_ c; fps_ := fps_ c; update_timer_ := update_timer_ c;
     isVisible := isVisible c; widget_size := widget_size c;
     windowState := windowState c; cursor := cursor c;
     scene_installed := scene_installed c; vis_sceneRect := vis_sceneRect c;
     overlay_size := v;
     overlay_proxy_opacity := overlay_proxy_opacity c;
     settings := settings c; engine_calls := engine_calls c |}.

Definition set_overlay_proxy_opacity v (c : VisualisationContainer) :=
  {| engine_ := engine_ c; fps_ := fps_ c; update_timer_ := update_timer_ c;
     isVisible := isVisible c; widget_size := widget_size c;
     windowState := windowState c; cursor := cursor c;
     scene_installed := scene_installed c; vis_sceneRect := vis_sceneRect c;
     overlay_size := overlay_size c;
     overlay_proxy_opacity := v;
     settings := settings c; engine_calls := engine_calls c |}.

Definition set_settings v (c : VisualisationContainer) :=
  {| engine_ := engine_ c; fps_ := fps_ c; update_timer_ := update_timer_ c;
     isVisible := isVisible c; widget_size := widget_size c;
     windowState := windowState c; cursor := cursor c;
     scene_installed := scene_installed c; vis_sceneRect := vis_sceneRect c;
     overlay_size := overlay_size c;
     overlay_proxy_opacity := overlay_proxy_opacity c;
     settings := v; engine_calls := engine_calls c |}.

Definition set_engine_calls v (c : VisualisationContainer) :=
  {| engine_ := engine_ c; fps_ := fps_ c; update_timer_ := update_timer_ c;
     isVisible := isVisible c; widget_size := widget_size c;
     windowState := windowState c; cursor := cursor c;
     scene_installed := scene_installed c; vis_sceneRect := vis_sceneRect c;
     overlay_size := overlay_size c;
     overlay_proxy_opacity := overlay_proxy_opacity c;
     settings := settings c; engine_calls := v |}.

(** Reads a field through the setters, and nothing more. *)
Ltac fields :=
  cbn [engine_ fps_ update_timer_ isVisible widget_size windowState cursor
       scene_installed vis_sceneRect overlay_size overlay_proxy_opacity
       settings engine_calls
       set_engine_ set_fps_ set_update_timer_ set_isVisible set_widget_size
       set_windowState set_cursor set_scene_installed set_vis_sceneRect
       set_overlay_size set_overlay_proxy_opacity set_settings
       set_engine_calls] in *.

(** [engine->AddBufferConsumer(vis_)] and [engine->RemoveBufferConsumer(vis_)]
    through a pointer that may be null. *)
Definition call_AddBufferConsumer (p : option GstEngine) (c : VisualisationContainer)
  : Outcome VisualisationContainer :=
  match p with
  | Some e => Ok (set_engine_calls (AddBufferConsumer e :: engine_calls c) c)
  | None => Undefined NullDereference
  end.

Definition call_RemoveBufferConsumer (p : option GstEngine) (c : VisualisationContainer)
  : Outcome VisualisationContainer :=
  match p with
  | Some e => Ok (set_engine_calls (RemoveBufferConsumer e :: engine_calls c) c)
  | None => Undefined NullDereference
  end.

(** [QSettings::setValue] and [QSettings::value] inside the group. *)
Definition setValue (key : string) (v : QVariant) (s : QSettings) : QSettings :=
  <[(kSettingsGroup, key) := v]> s.

Definition value (key : string) (s : QSettings) : option QVariant :=
  s !! (kSettingsGroup, key).

(** ** The methods *)

Section Methods.

Context {toolkit : Toolkit}.

(** [QVariant::toInt()] and [QVariant::toByteArray()]; an absent key
    without default gives the invalid variant, whose byte array is empty. *)
Definition toInt (v : QVariant) : Z :=
  match v with
  | VInt i => i
  | VByteArray b => QByteArray_toInt b
  end.

Definition toByteArray (v : option QVariant) : QByteArray :=
  match v with
  | Some (VByteArray b) => b
  | Some (VInt i) => QByteArray_number i
  | None => EmptyString
  end.

(** [VisualisationContainer::SetEngine], lines 100-104. *)
Definition SetEngine (engine : option GstEngine) (c : VisualisationContainer)
  : Outcome VisualisationContainer :=
  let c := set_engine_ engine c in
  if isVisible c then call_AddBufferConsumer (engine_ c) c else Ok c.

(** [VisualisationContainer::showEvent], lines 106-112.  The handler of
    the base class does not touch the state of the model. *)
Definition showEvent (c : VisualisationContainer) : Outcome VisualisationContainer :=
  bind (int_div 1000 (fps_ c)) (fun msec =>
  let c := set_update_timer_ (QBasicTimer_start msec (update_timer_ c)) c in
  match engine_ c with
  | Some _ => call_AddBufferConsumer (engine_ c) c
  | None => Ok c
  end).

(** [VisualisationContainer::hideEvent], lines 114-120.  The handler of
    the base class does not touch the state of the model. *)
Definition hideEvent (c : VisualisationContainer) : Outcome VisualisationContainer :=
  let c := set_update_timer_ (QBasicTimer_stop (update_timer_ c)) c in
  match engine_ c with
  | Some _ => call_RemoveBufferConsumer (engine_ c) c
  | None => Ok c
  end.

(** [VisualisationContainer::SizeChanged], lines 127-139. *)
Definition SizeChanged (c : VisualisationContainer) : VisualisationContainer :=
  (* Save the geometry *)
  let c := set_settings
             (setValue "geometry"
                (VByteArray (saveGeometry (widget_size c) (windowState c)))
                (settings c)) c in
  (* Resize the scene *)
  let c := if scene_installed c
           then set_vis_sceneRect
                  {| rect_x := 0; rect_y := 0; rect_size := widget_size c |} c
           else c in
  (* Resize the overlay *)
  set_overlay_size (widget_size c) c.

(** [VisualisationContainer::resizeEvent], lines 122-125, after the
    handler of the base class. *)
Definition resizeEvent (c : VisualisationContainer) : VisualisationContainer :=
  SizeChanged c.

(** [VisualisationContainer::ChangeOverlayOpacity], lines 160-168. *)
Definition ChangeOverlayOpacity (v : qreal) (c : VisualisationContainer)
  : VisualisationContainer :=
  let c := set_overlay_proxy_opacity v c in
  (* Hide the cursor if the overlay is hidden *)
  if qreal_lt v qreal_half
  then set_cursor (Some BlankCursor) c
  else set_cursor None c.

(** [VisualisationContainer::ToggleFullscreen], lines 195-197. *)
Definition ToggleFullscreen (c : VisualisationContainer) : VisualisationContainer :=
  set_windowState (Z.lxor (windowState c) WindowFullScreen) c.

(** [VisualisationContainer::mouseDoubleClickEvent], lines 185-188, after
    the handler of the base class. *)
Definition mouseDoubleClickEvent (c : VisualisationContainer) : VisualisationContainer :=
  ToggleFullscreen c.

(** [VisualisationContainer::SetFps], lines 199-209. *)
Definition SetFps (fps : Z) (c : VisualisationContainer)
  : Outcome VisualisationContainer :=
  let c := set_fps_ fps c in
  (* Save settings *)
  let c := set_settings (setValue "fps" (VInt (fps_ c)) (settings c)) c in
  let c := set_update_timer_ (QBasicTimer_stop (update_timer_ c)) c in
  bind (int_div 1000 (fps_ c)) (fun msec =>
  Ok (set_update_timer_ (QBasicTimer_start msec (update_timer_ c)) c)).

(** The constructor, lines 38-89, for a settings store [store].  A new
    widget is hidden, has no window state and no timer running; its size
    is fixed by [restoreGeometry] or by [resize(kDefaultWidth,
    kDefaultHeight)], and the scene rectangle and the overlay size by the
    call of [SizeChanged].  The menu is not part of the model. *)
Definition VisualisationContainer_new (store : QSettings) : VisualisationContainer :=
  let c := {| engine_ := None;
              fps_ := kDefaultFps;
              update_timer_ := None;
              isVisible := false;
              widget_size := {| width := 0; height := 0 |};
              windowState := WindowNoState;
              cursor := None;
              scene_installed := false;
              vis_sceneRect := {| rect_x := 0; rect_y := 0;
                                  rect_size := {| width := 0; height := 0 |} |};
              overlay_size := {| width := 0; height := 0 |};
              overlay_proxy_opacity := Finite 1%Q;
              settings := store;
              engine_calls := [] |} in
  (* Set up the graphics view *)
  let c := set_scene_installed true c in
  (* Add the overlay *)
  let c := ChangeOverlayOpacity qreal_zero c in
  (* Load settings *)
  let c := match restoreGeometry (toByteArray (value "geometry" (settings c))) with
           | Some (sz, ws) => set_windowState ws (set_widget_size sz c)
           | None =>
               set_widget_size {| width := kDefaultWidth; height := kDefaultHeight |} c
           end in
  let c := set_fps_ (toInt (default (VInt kDefaultFps) (value "fps" (settings c)))) c in
  SizeChanged c.

(** ** Events

    The toolkit changes the widget before it calls the handler: the
    widget is visible when [showEvent] runs and hidden when [hideEvent]
    runs, and [size()] is the new size when [resizeEvent] runs. *)

Inductive Event :=
  | Show
  | Hide
  | Resize (sz : QSize)
  | MouseDoubleClick
  | OverlayOpacityChanged (v : qreal)
  | CallSetEngine (engine : option GstEngine)
  | CallSetFps (fps : Z)
  | CallToggleFullscreen.

Definition step (ev : Event) (c : VisualisationContainer)
  : Outcome VisualisationContainer :=
  match ev with
  | Show => showEvent (set_isVisible true c)
  | Hide => hideEvent (set_isVisible false c)
  | Resize sz => Ok (resizeEvent (set_widget_size sz c))
  | MouseDoubleClick => Ok (mouseDoubleClickEvent c)
  | OverlayOpacityChanged v => Ok (ChangeOverlayOpacity v c)
  | CallSetEngine engine => SetEngine engine c
  | CallSetFps fps => SetFps fps c
  | CallToggleFullscreen => Ok (ToggleFullscreen c)
  end.

Fixpoint run (evs : list Event) (c : VisualisationContainer)
  : Outcome VisualisationContainer :=
  match evs with
  | [] => Ok c
  | ev :: rest => bind (step ev c) (run rest)
  end.

(** ** What the audio engines see

    The calls are stored most recent first; both observers replay them
    from the oldest. *)

(** Modelled from the spec: the registry of buffer consumers of an engine
    ([GstEngine] is declared in engines/gstengine.h, which is not under
    src/).  [AddBufferConsumer] adds one registration of the scene and
    [RemoveBufferConsumer] removes the scene from the registry. *)
Fixpoint consumer_count (e : GstEngine) (calls : list EngineCall) : nat :=
  match calls with
  | [] => 0%nat
  | AddBufferConsumer e' :: older =>
      if decide (e' = e) then S (consumer_count e older) else consumer_count e older
  | RemoveBufferConsumer e' :: older =>
      if decide (e' = e) then 0%nat else consumer_count e older
  end.

(** The calls on engine [e] alternate, starting with a subscription:
    [Some b] when they do, [b] telling whether the last one subscribed;
    [None] when an engine is subscribed twice in a row or unsubscribed
    without being subscribed. *)
Fixpoint pairing (e : GstEngine) (calls : list EngineCall) : option bool :=
  match calls with
  | [] => Some false
  | call :: older =>
      match pairing e older with
      | None => None
      | Some subscribed =>
          match call with
          | AddBufferConsumer e' =>
              if decide (e' = e)
              then (if subscribed then None else Some true)
              else Some subscribed
          | RemoveBufferConsumer e' =>
              if decide (e' = e)
              then (if subscribed then Some false else None)
              else Some subscribed
          end
      end
  end.

(** The events as the toolkit and the application produce them: a show
    event for a hidden widget, a hide event for a visible one, and
    [SetEngine] on a visible widget only while it has no engine. *)
Definition in_protocol (c : VisualisationContainer) (ev : Event) : bool :=
  match ev with
  | Show => negb (isVisible c)
  | Hide => isVisible c
  | CallSetEngine _ => negb (isVisible c) || bool_decide (engine_ c = None)
  | _ => true
  end.

Fixpoint follows_protocol (evs : list Event) (c : VisualisationContainer) : bool :=
  match evs with
  | [] => true
  | ev :: rest =>
      in_protocol c ev &&
      match step ev c with
      | Ok c' => follows_protocol rest c'
      | Undefined _ => true
      end
  end.

(** [SetEngine] does not replace the engine of a visible widget: the
    widget is hidden, or it has no engine yet, or it is given the engine
    it already has.  Show and hide events may come in any order. *)
Definition keeps_engine (c : VisualisationContainer) (ev : Event) : bool :=
  match ev with
  | CallSetEngine engine =>
      negb (isVisible c) || bool_decide (engine_ c = None) ||
      bool_decide (engine = engine_ c)
  | _ => true
  end.

Fixpoint never_replaces_engine (evs : list Event) (c : VisualisationContainer) : bool :=
  match evs with
  | [] => true
  | ev :: rest =>
      keeps_engine c ev &&
      match step ev c with
      | Ok c' => never_replaces_engine rest c'
      | Undefined _ => true
      end
  end.

Definition is_CallSetFps (ev : Event) : bool :=
  match ev with
  | CallSetFps _ => true
  | _ => false
  end.

Definition nonzero_fps (ev : Event) : bool :=
  match ev with
  | CallSetFps fps => negb (fps =? 0)
  | _ => true
  end.

(** ** Invariants *)

(** The calls on every engine alternate, and an engine holds the scene
    exactly when the widget is visible and the engine is the current one. *)
Definition engine_inv (c : VisualisationContainer) : Prop :=
  forall e,
    pairing e (engine_calls c) =
      Some (isVisible c && bool_decide (engine_ c = Some e)).

(** An engine that holds the scene is the current engine of a visible
    widget. *)
Definition held_by_current_engine (c : VisualisationContainer) : Prop :=
  forall e,
    consumer_count e (engine_calls c) <> 0%nat ->
    isVisible c = true /\ engine_ c = Some e.

(** The current engine of a visible widget holds the scene. *)
Definition current_engine_holds (c : VisualisationContainer) : Prop :=
  forall e,
    isVisible c = true -> engine_ c = Some e ->
    (1 <= consumer_count e (engine_calls c))%nat.

(** While the widget is visible the timer runs at [1000 / fps_]. *)
Definition timer_inv (c : VisualisationContainer) : Prop :=
  isVisible c = true ->
  fps_ c <> 0 /\ update_timer_ c = Some (1000 ÷ fps_ c).

(** Without a call of [SetFps], a hidden widget has its timer stopped. *)
Definition hidden_stopped (c : VisualisationContainer) : Prop :=
  isVisible c = false -> update_timer_ c = None.

(** ** The Framerate menu *)

(** A [QAction] of the menu: its text and the two flags the code sets. *)
Record QAction := {
  action_text : string;
  action_checkable : bool;
  action_checked : bool
}.

(** [fps_group] holds the actions in the order they were added;
    [fps_mapper] maps an action, known by its place in the group, to the
    int that [mapped(int)] carries. *)
Record FpsMenu := {
  fps_group : list QAction;
  fps_mapper : gmap nat Z
}.

(** [VisualisationContainer::AddMenuItem], lines 91-98: the new action
    goes to the end of the group, gets the flag that [setChecked] is given,
    and is mapped to [val].  The check marks that the toolkit moves when an
    action is triggered later are not part of the model. *)
Definition AddMenuItem (name : string) (val def : Z) (m : FpsMenu) : FpsMenu :=
  let action := length (fps_group m) in
  {| fps_group :=
       fps_group m ++
       [{| action_text := name;
           action_checkable := true;
           action_checked := val =? def |}];
     fps_mapper := <[action := val]> (fps_mapper m) |}.

(** The Framerate menu of the constructor, lines 76-84, built for the
    value [fps] of [fps_].  The texts are the untranslated ones. *)
Definition build_fps_menu (fps : Z) : FpsMenu :=
  let m := {| fps_group := []; fps_mapper := ∅ |} in
  let m := AddMenuItem "Low (15 fps)" 15 fps m in
  let m := AddMenuItem "Medium (25 fps)" 25 fps m in
  let m := AddMenuItem "High (35 fps)" 35 fps m in
  AddMenuItem "Super high (60 fps)" 60 fps m.

(** The constructor builds the menu after it has loaded [fps_]. *)
Definition constructor_fps_menu (store : QSettings) : FpsMenu :=
  build_fps_menu (fps_ (VisualisationContainer_new store)).

(** An action of the group is triggered: [QSignalMapper::map()] emits
    [mapped(int)] with the int of the action, which is connected to
    [SetFps(int)] (line 84); an action without mapping emits nothing. *)
Definition trigger_fps_action (action : nat) (m : FpsMenu) (c : VisualisationContainer)
  : Outcome VisualisationContainer :=
  match fps_mapper m !! action with
  | Some val => SetFps val c
  | None => Ok c
  end.

(** ** More invariants and classes of events *)

(** What the constructor would load from the store is the current [fps_]. *)
Definition fps_persisted (c : VisualisationContainer) : Prop :=
  toInt (default (VInt kDefaultFps) (value "fps" (settings c))) = fps_ c.

(** The scene and the overlay have the size of the widget. *)
Definition layout_inv (c : VisualisationContainer) : Prop :=
  scene_installed c = true /\
  vis_sceneRect c = {| rect_x := 0; rect_y := 0; rect_size := widget_size c |} /\
  overlay_size c = widget_size c.

(** The cursor is hidden exactly while the overlay is mostly transparent. *)
Definition cursor_inv (c : VisualisationContainer) : Prop :=
  cursor c =
    if qreal_lt (overlay_proxy_opacity c) qreal_half then Some BlankCursor else None.

Definition sets_null_engine (ev : Event) : bool :=
  match ev with
  | CallSetEngine None => true
  | _ => false
  end.

Definition calls_engine (ev : Event) : bool :=
  match ev with
  | Show | Hide | CallSetEngine _ => true
  | _ => false
  end.

Definition toggles_fullscreen (ev : Event) : bool :=
  match ev with
  | MouseDoubleClick | CallToggleFullscreen => true
  | _ => false
  end.

Definition restarts_timer (ev : Event) : bool :=
  match ev with
  | Show | Hide | CallSetFps _ => true
  | _ => false
  end.

Definition is_Resize (ev : Event) : bool :=
  match ev with
  | Resize _ => true
  | _ => false
  end.

Definition is_OverlayOpacityChanged (ev : Event) : bool :=
  match ev with
  | OverlayOpacityChanged _ => true
  | _ => false
  end.

End Methods.

(** ** A toolkit and a store to evaluate the model on *)

(** [saveGeometry] returns a fixed blob and [restoreGeometry] rejects
    every blob, so the constructor takes the default size. *)
Definition sample_toolkit : Toolkit :=
  {| saveGeometry := fun _ _ => "geometry";
     restoreGeometry := fun _ => None;
     QByteArray_toInt := fun _ => 0;
     QByteArray_number := fun _ => EmptyString |}.

(** The container built on an empty settings store. *)
Definition fresh_container : VisualisationContainer :=
  @VisualisationContainer_new sample_toolkit ∅.

(** The state a run leaves, when it is defined. *)
Definition state_after (evs : list Event) (c : VisualisationContainer)
  : VisualisationContainer :=
  match @run sample_toolkit evs c with
  | Ok c' => c'
  | Undefined _ => c
  end.


(** A run that keeps to the protocol: the engine is set before the first
    show event, dropped and set again while the widget has none. *)
Definition sample_events : list Event :=
  [CallSetEngine (Some 7%nat); Show; Resize {| width := 640; height := 480 |};
   CallSetFps 25; Hide; CallSetEngine None; Show; CallSetEngine (Some 9%nat);
   MouseDoubleClick; Hide; Show].

(** Runs that replace or repeat the engine of a visible widget. *)
Definition engine_set_twice : list Event :=
  [CallSetEngine (Some 1%nat); Show; CallSetEngine (Some 1%nat)].

(** A run that repeats show and hide events and gives the widget the
    engine it has, but never another one while it is visible. *)
Definition engine_kept : list Event :=
  [Show; CallSetEngine (Some 7%nat); Show; CallSetEngine (Some 7%nat);
   CallSetFps 25; Hide; Hide; CallSetEngine (Some 9%nat); Show;
   CallSetEngine (Some 9%nat); Hide].

Definition engine_replaced : list Event :=
  [CallSetEngine (Some 1%nat); Show; CallSetEngine (Some 2%nat); Hide].

(** A toolkit whose [restoreGeometry] accepts the blob that its
    [saveGeometry] produces, for a window of 640 x 480 in no special state. *)
Definition fixed_geometry_toolkit : Toolkit :=
  {| saveGeometry := fun _ _ => "640x480";
     restoreGeometry := fun blob =>
       if decide (blob = "640x480")
       then Some ({| width := 640; height := 480 |}, WindowNoState)
       else None;
     QByteArray_toInt := fun _ => 0;
     QByteArray_number := fun _ => EmptyString |}.

(** The container built with that toolkit on an empty settings store. *)
Definition plain_window : VisualisationContainer :=
  @VisualisationContainer_new fixed_geometry_toolkit ∅.

(** A run without null engine and without zero frame rate. *)
Definition safe_events : list Event :=
  [CallSetEngine (Some 7%nat); Show; CallSetFps 60;
   OverlayOpacityChanged (Finite (3 # 4)); Hide].

(** A toolkit whose [restoreGeometry] accepts every blob but the empty one
    and returns 100 x 100 for it, whatever was saved. *)
Definition lossy_geometry_toolkit : Toolkit :=
  {| saveGeometry := fun _ _ => "blob";
     restoreGeometry := fun blob =>
       if decide (blob = EmptyString)
       then None
       else Some ({| width := 100; height := 100 |}, WindowNoState);
     QByteArray_toInt := fun _ => 0;
     QByteArray_number := fun _ => EmptyString |}.

(** * Properties *)

Section Properties.

Context {toolkit : Toolkit}.

(** ** Division and the two methods that divide *)

Lemma int_div_nonzero (a b : Z) : b <> 0 -> int_div a b = Ok (a ÷ b).
Proof.
  intros Hb. unfold int_div.
  destruct (Z.eqb_spec b 0) as [Heq | _]; [contradiction | reflexivity].
Qed.

Lemma int_div_zero (a : Z) : int_div a 0 = Undefined DivisionByZero.
Proof. reflexivity. Qed.

Lemma int_div_fault (a b : Z) (why : Fault) :
  int_div a b = Undefined why -> b = 0 /\ why = DivisionByZero.
Proof.
  unfold int_div. destruct (Z.eqb_spec b 0) as [Heq | Hne]; intros H.
  - split; [exact Heq | congruence].
  - discriminate H.
Qed.

(** The quotient of 1000 by an int is an int: the division cannot overflow. *)
Lemma interval_is_int (fps : Z) : is_int fps -> fps <> 0 -> is_int (1000 ÷ fps).
Proof.
  unfold is_int, INT_MIN, INT_MAX. intros _ Hne.
  assert (Habs : Z.abs (1000 ÷ fps) <= 1000).
  { rewrite <- Z.quot_abs by exact Hne.
    change (Z.abs 1000) with 1000.
    apply Z.quot_le_upper_bound; lia. }
  lia.
Qed.

Lemma showEvent_nonzero (c : VisualisationContainer) :
  fps_ c <> 0 ->
  showEvent c =
    Ok (match engine_ c with
        | Some e =>
            set_engine_calls (AddBufferConsumer e :: engine_calls c)
              (set_update_timer_ (Some (1000 ÷ fps_ c)) c)
        | None => set_update_timer_ (Some (1000 ÷ fps_ c)) c
        end).
Proof.
  intros Hne. unfold showEvent. rewrite (int_div_nonzero _ _ Hne). cbn.
  destruct (engine_ c); reflexivity.
Qed.

Lemma SetFps_nonzero (fps : Z) (c : VisualisationContainer) :
  fps <> 0 ->
  SetFps fps c =
    Ok (set_update_timer_ (Some (1000 ÷ fps))
          (set_settings (setValue "fps" (VInt fps) (settings c)) (set_fps_ fps c))).
Proof.
  intros Hne. unfold SetFps. cbn. rewrite (int_div_nonzero _ _ Hne). reflexivity.
Qed.

Lemma showEvent_Ok (c c' : VisualisationContainer) :
  showEvent c = Ok c' -> fps_ c <> 0.
Proof.
  unfold showEvent, int_div. intros H Hz. rewrite Hz in H. discriminate H.
Qed.

Lemma SetFps_Ok (fps : Z) (c c' : VisualisationContainer) :
  SetFps fps c = Ok c' -> fps <> 0.
Proof.
  unfold SetFps, int_div. fields. intros H Hz. rewrite Hz in H. discriminate H.
Qed.

(** ** The constructor *)

Lemma new_state (store : QSettings) :
  engine_ (VisualisationContainer_new store) = None /\
  isVisible (VisualisationContainer_new store) = false /\
  update_timer_ (VisualisationContainer_new store) = None /\
  engine_calls (VisualisationContainer_new store) = [] /\
  scene_installed (VisualisationContainer_new store) = true /\
  fps_ (VisualisationContainer_new store) =
    toInt (default (VInt kDefaultFps) (store !! (kSettingsGroup, "fps"))).
Proof.
  unfold VisualisationContainer_new, SizeChanged, ChangeOverlayOpacity.
  change (qreal_lt qreal_zero qreal_half) with true. cbv iota. fields.
  destruct (restoreGeometry _) as [[sz ws] | ]; fields; repeat split; reflexivity.
Qed.

(** ** Steps and runs *)

(** What a step does to the fields the invariants are about. *)
Ltac step_inversion H :=
  match type of H with
  | step ?ev ?c = Ok ?c' =>
      destruct ev; cbn [step] in H;
      [ let Hne := fresh "Hfps" in
        pose proof (showEvent_Ok _ _ H) as Hne;
        rewrite (showEvent_nonzero _ Hne) in H; fields
      | unfold hideEvent, call_RemoveBufferConsumer in H; fields
      | unfold resizeEvent, SizeChanged in H; fields
      | unfold mouseDoubleClickEvent, ToggleFullscreen in H
      | unfold ChangeOverlayOpacity in H
      | unfold SetEngine, call_AddBufferConsumer in H; fields
      | let Hne := fresh "Hfps" in
        pose proof (SetFps_Ok _ _ _ H) as Hne;
        rewrite (SetFps_nonzero _ _ Hne) in H
      | unfold ToggleFullscreen in H ];
      repeat match type of H with
             | context [match ?x with _ => _ end] => destruct x eqn:?
             end;
      try discriminate H;
      injection H as <-; fields
  end.

Lemma step_scene_installed (ev : Event) (c c' : VisualisationContainer) :
  step ev c = Ok c' -> scene_installed c' = scene_installed c.
Proof. intros H. step_inversion H; congruence. Qed.

Lemma run_app (evs1 evs2 : list Event) (c : VisualisationContainer) :
  run (evs1 ++ evs2) c = bind (run evs1 c) (run evs2).
Proof.
  revert c. induction evs1 as [ | ev evs1 IH]; intros c; cbn; [reflexivity | ].
  destruct (step ev c) as [c1 | why]; cbn; [apply IH | reflexivity].
Qed.

(** An invariant of the steps holds in every state a run reaches. *)
Lemma run_invariant (P : VisualisationContainer -> Prop) (good : Event -> bool) :
  (forall ev c c', good ev = true -> P c -> step ev c = Ok c' -> P c') ->
  forall evs c c',
    forallb good evs = true -> P c -> run evs c = Ok c' -> P c'.
Proof.
  intros Hstep. induction evs as [ | ev evs IH]; intros c c' Hgood HP Hrun; cbn in *.
  - injection Hrun as <-. exact HP.
  - apply andb_prop in Hgood as [Hev Hevs].
    destruct (step ev c) as [c1 | why] eqn:Hs; cbn in Hrun; [ | discriminate Hrun].
    apply (IH c1 c' Hevs); [ | exact Hrun]. exact (Hstep ev c c1 Hev HP Hs).
Qed.

Lemma forallb_true {A} (l : list A) : forallb (fun _ => true) l = true.
Proof. induction l; [reflexivity | assumption]. Qed.

Lemma run_scene_installed (store : QSettings) (evs : list Event)
      (c : VisualisationContainer) :
  run evs (VisualisationContainer_new store) = Ok c -> scene_installed c = true.
Proof.
  intros Hrun.
  apply (run_invariant (fun c => scene_installed c = true) (fun _ => true))
    with (evs := evs) (c := VisualisationContainer_new store).
  - intros ev c0 c1 _ HP Hs. rewrite (step_scene_installed _ _ _ Hs). exact HP.
  - apply forallb_true.
  - apply new_state.
  - exact Hrun.
Qed.

Lemma step_Show_effect (c : VisualisationContainer) :
  match step Show c with
  | Ok c' =>
      fps_ c <> 0 /\
      isVisible c' = true /\
      fps_ c' = fps_ c /\
      update_timer_ c' = Some (1000 ÷ fps_ c) /\
      engine_ c' = engine_ c /\
      engine_calls c' =
        match engine_ c with
        | Some e => AddBufferConsumer e :: engine_calls c
        | None => engine_calls c
        end
  | Undefined why => fps_ c = 0 /\ why = DivisionByZero
  end.
Proof.
  cbn [step]. destruct (Z.eq_dec (fps_ c) 0) as [Hz | Hne].
  - unfold showEvent. fields. rewrite Hz. cbn. split; reflexivity.
  - rewrite showEvent_nonzero by exact Hne. fields.
    destruct (engine_ c) as [e | ] eqn:He; fields; rewrite ?He;
      repeat split; exact Hne.
Qed.

Lemma step_Hide_effect (c : VisualisationContainer) :
  exists c',
    step Hide c = Ok c' /\
    isVisible c' = false /\
    fps_ c' = fps_ c /\
    update_timer_ c' = None /\
    engine_ c' = engine_ c /\
    engine_calls c' =
      match engine_ c with
      | Some e => RemoveBufferConsumer e :: engine_calls c
      | None => engine_calls c
      end.
Proof.
  cbn [step]. unfold hideEvent, call_RemoveBufferConsumer. fields.
  destruct (engine_ c) as [e | ] eqn:He; eexists; (split; [reflexivity | ]);
    fields; rewrite ?He; repeat split.
Qed.

(** ** Subscriptions to the audio engine *)

Lemma consumer_count_add (e : GstEngine) (calls : list EngineCall) :
  consumer_count e (AddBufferConsumer e :: calls) = S (consumer_count e calls).
Proof. cbn [consumer_count]. rewrite decide_True by reflexivity. reflexivity. Qed.

Lemma consumer_count_remove (e : GstEngine) (calls : list EngineCall) :
  consumer_count e (RemoveBufferConsumer e :: calls) = 0%nat.
Proof. cbn [consumer_count]. rewrite decide_True by reflexivity. reflexivity. Qed.

Lemma pairing_consumer_count (e : GstEngine) (calls : list EngineCall) (b : bool) :
  pairing e calls = Some b ->
  consumer_count e calls = if b then 1%nat else 0%nat.
Proof.
  revert b. induction calls as [ | call older IH]; intros b H; cbn in *.
  - injection H as <-. reflexivity.
  - destruct (pairing e older) as [sub | ]; [ | discriminate H].
    specialize (IH sub eq_refl).
    destruct call as [e' | e']; destruct (decide (e' = e)) as [Heq | Hne];
      destruct sub; try discriminate H; injection H as <-;
      rewrite ?IH; reflexivity.
Qed.

Lemma engine_inv_step (ev : Event) (c c' : VisualisationContainer) :
  engine_inv c -> in_protocol c ev = true -> step ev c = Ok c' -> engine_inv c'.
Proof.
  unfold engine_inv. intros Hinv Hproto Hstep e. specialize (Hinv e).
  step_inversion Hstep; cbn [in_protocol] in Hproto; cbn [pairing];
    try exact Hinv.
  all: repeat match goal with
         | H : negb _ = true |- _ => apply negb_true_iff in H
         | H : _ || _ = true |- _ => apply orb_prop in H as [H | H]
         | H : bool_decide _ = true |- _ => apply bool_decide_eq_true in H
         end;
       try congruence.
  all: repeat match goal with
         | H : isVisible _ = _ |- _ => rewrite H in *
         | H : engine_ _ = _ |- _ => rewrite H in *
         end;
       cbn [andb] in *; rewrite ?Hinv; try reflexivity;
       repeat case_decide; repeat case_bool_decide; congruence.
Qed.

Lemma engine_inv_run (evs : list Event) (c c' : VisualisationContainer) :
  engine_inv c -> follows_protocol evs c = true -> run evs c = Ok c' ->
  engine_inv c'.
Proof.
  revert c. induction evs as [ | ev evs IH]; intros c Hinv Hproto Hrun; cbn in *.
  - injection Hrun as <-. exact Hinv.
  - apply andb_prop in Hproto as [Hev Hevs].
    destruct (step ev c) as [c1 | why] eqn:Hs; cbn in Hrun; [ | discriminate Hrun].
    exact (IH c1 (engine_inv_step _ _ _ Hinv Hev Hs) Hevs Hrun).
Qed.

Lemma engine_inv_new (store : QSettings) :
  engine_inv (VisualisationContainer_new store).
Proof.
  intros e. destruct (new_state store) as (_ & -> & _ & -> & _). reflexivity.
Qed.

Lemma held_by_current_engine_step (ev : Event) (c c' : VisualisationContainer) :
  held_by_current_engine c -> keeps_engine c ev = true -> step ev c = Ok c' ->
  held_by_current_engine c'.
Proof.
  unfold held_by_current_engine. intros Hinv Hkeep Hstep e. specialize (Hinv e).
  step_inversion Hstep; cbn [keeps_engine] in Hkeep; cbn [consumer_count];
    try exact Hinv.
  all: repeat match goal with
         | H : _ || _ = true |- _ => apply orb_prop in H as [H | H]
         | H : negb _ = true |- _ => apply negb_true_iff in H
         | H : bool_decide _ = true |- _ => apply bool_decide_eq_true in H
         end.
  all: repeat case_decide; subst; intros Hcount;
       first [ contradiction
             | split; congruence
             | destruct (Hinv Hcount) as [Hvis Heng]; split; congruence
             | destruct (Hinv Hcount) as [Hvis Heng]; congruence ].
Qed.

Lemma held_by_current_engine_run (evs : list Event) (c c' : VisualisationContainer) :
  held_by_current_engine c -> never_replaces_engine evs c = true ->
  run evs c = Ok c' -> held_by_current_engine c'.
Proof.
  revert c. induction evs as [ | ev evs IH]; intros c Hinv Hkeep Hrun; cbn in *.
  - injection Hrun as <-. exact Hinv.
  - apply andb_prop in Hkeep as [Hev Hevs].
    destruct (step ev c) as [c1 | why] eqn:Hs; cbn in Hrun; [ | discriminate Hrun].
    exact (IH c1 (held_by_current_engine_step _ _ _ Hinv Hev Hs) Hevs Hrun).
Qed.

Lemma held_by_current_engine_new (store : QSettings) :
  held_by_current_engine (VisualisationContainer_new store).
Proof.
  intros e. destruct (new_state store) as (_ & _ & _ & -> & _).
  intros Hcount. contradiction.
Qed.

Lemma current_engine_holds_step (ev : Event) (c c' : VisualisationContainer) :
  current_engine_holds c -> step ev c = Ok c' -> current_engine_holds c'.
Proof.
  unfold current_engine_holds. intros Hinv Hstep e. specialize (Hinv e).
  step_inversion Hstep; cbn [consumer_count]; try exact Hinv;
    intros Hvis Heng; try discriminate Hvis; try discriminate Heng;
    repeat case_decide; try congruence; try lia;
    apply Hinv; congruence.
Qed.

(** The restriction on [SetEngine] cannot be dropped: in any state reached
    from the constructor, replacing the engine of a visible widget by
    another one leaves the first engine holding the scene after the next
    hide event. *)
Lemma replacing_engine_leaves_scene_registered
      (store : QSettings) (evs : list Event) (c : VisualisationContainer)
      (e1 e2 : GstEngine) :
  run evs (VisualisationContainer_new store) = Ok c ->
  isVisible c = true -> engine_ c = Some e1 -> e2 <> e1 ->
  exists c',
    run [CallSetEngine (Some e2); Hide] c = Ok c' /\
    isVisible c' = false /\
    (1 <= consumer_count e1 (engine_calls c'))%nat.
Proof.
  intros Hrun Hvis Heng Hne.
  assert (Hholds : current_engine_holds c).
  { apply (run_invariant current_engine_holds (fun _ => true))
      with (evs := evs) (c := VisualisationContainer_new store);
      [ | apply forallb_true | | exact Hrun].
    - intros ev c0 c1 _. apply current_engine_holds_step.
    - intros e. destruct (new_state store) as (_ & -> & _). intros H. discriminate H. }
  specialize (Hholds e1 Hvis Heng).
  cbn [run step bind]. unfold SetEngine, call_AddBufferConsumer. fields.
  rewrite Hvis. cbn [bind]. unfold hideEvent, call_RemoveBufferConsumer. fields.
  eexists. split; [reflexivity | ]. fields. split; [reflexivity | ].
  cbn [consumer_count]. rewrite !decide_False by exact Hne. exact Hholds.
Qed.

(** ** The repaint timer *)

Lemma timer_inv_step (ev : Event) (c c' : VisualisationContainer) :
  timer_inv c -> step ev c = Ok c' -> timer_inv c'.
Proof.
  unfold timer_inv. intros Hinv Hstep.
  step_inversion Hstep; try exact Hinv;
    try (intros _; split; [assumption | reflexivity]);
    intros Hvis; first [discriminate Hvis | apply Hinv; congruence].
Qed.

Lemma timer_inv_run (evs : list Event) (c c' : VisualisationContainer) :
  timer_inv c -> run evs c = Ok c' -> timer_inv c'.
Proof.
  intros Hinv Hrun.
  apply (run_invariant timer_inv (fun _ => true)) with (evs := evs) (c := c);
    [ | apply forallb_true | exact Hinv | exact Hrun].
  intros ev c0 c1 _ H0 Hs. exact (timer_inv_step _ _ _ H0 Hs).
Qed.

Lemma hidden_stopped_step (ev : Event) (c c' : VisualisationContainer) :
  negb (is_CallSetFps ev) = true ->
  hidden_stopped c -> step ev c = Ok c' -> hidden_stopped c'.
Proof.
  unfold hidden_stopped. intros Hev Hinv Hstep.
  step_inversion Hstep; try discriminate Hev; intros Hvis;
    first [discriminate Hvis | reflexivity | congruence | apply Hinv; congruence].
Qed.

(** ** Division by zero *)

Lemma step_division_by_zero (ev : Event) (c : VisualisationContainer) :
  step ev c = Undefined DivisionByZero <->
  (ev = Show /\ fps_ c = 0) \/ ev = CallSetFps 0.
Proof.
  split.
  - destruct ev; cbn [step]; intros H; try discriminate H.
    + left. split; [reflexivity | ].
      unfold showEvent in H. fields.
      destruct (int_div 1000 (fps_ c)) as [msec | why] eqn:Hdiv; cbn [bind] in H.
      * destruct (engine_ c); discriminate H.
      * apply int_div_fault in Hdiv. tauto.
    + exfalso. unfold hideEvent, call_RemoveBufferConsumer in H. fields.
      destruct (engine_ c); discriminate H.
    + unfold SetEngine, call_AddBufferConsumer in H. fields.
      destruct (isVisible c), engine; discriminate H.
    + right. unfold SetFps in H. fields.
      destruct (int_div 1000 fps) as [msec | why] eqn:Hdiv; cbn [bind] in H;
        [discriminate H | ].
      apply int_div_fault in Hdiv as [-> _]. reflexivity.
  - intros [[-> Hz] | ->]; cbn [step].
    + unfold showEvent. fields. rewrite Hz. reflexivity.
    + reflexivity.
Qed.

Lemma fps_step (ev : Event) (c c' : VisualisationContainer) :
  nonzero_fps ev = true -> fps_ c <> 0 -> step ev c = Ok c' -> fps_ c' <> 0.
Proof.
  intros Hev Hinv Hstep. step_inversion Hstep; assumption.
Qed.

Lemma run_no_division_by_zero (evs : list Event) (c : VisualisationContainer) :
  fps_ c <> 0 -> forallb nonzero_fps evs = true ->
  run evs c <> Undefined DivisionByZero.
Proof.
  revert c. induction evs as [ | ev evs IH]; intros c Hfps Hgood; cbn in *.
  - discriminate.
  - apply andb_prop in Hgood as [Hev Hevs].
    destruct (step ev c) as [c1 | why] eqn:Hs; cbn [bind].
    + apply IH; [ | exact Hevs]. exact (fps_step _ _ _ Hev Hfps Hs).
    + intros Hwhy. injection Hwhy as ->.
      apply step_division_by_zero in Hs as [[_ Hz] | ->].
      * contradiction.
      * discriminate Hev.
Qed.

(** ** The claims *)

(** C1: for a positive [f], [SetFps f] is defined, stores [f] in [fps_],
    writes it under the key fps of the group Visualisations and leaves the
    timer started with interval [1000 / f], and changes neither the
    visibility nor the engine.  In every state reached from there, while
    the widget is visible the interval of the timer is [1000 / fps_]. *)
Theorem SetFps_sets_fps_and_restarts_timer (f : Z) (c : VisualisationContainer) :
  0 < f ->
  exists c',
    SetFps f c = Ok c' /\
    fps_ c' = f /\
    settings c' = <[("Visualisations", "fps") := VInt f]> (settings c) /\
    update_timer_ c' = Some (1000 / f) /\
    isVisible c' = isVisible c /\
    engine_ c' = engine_ c /\
    engine_calls c' = engine_calls c /\
    forall evs c'',
      run evs c' = Ok c'' ->
      isVisible c'' = true ->
      update_timer_ c'' = Some (1000 ÷ fps_ c'').
Proof.
  intros Hpos. eexists. split.
  - apply SetFps_nonzero. lia.
  - fields. rewrite Z.quot_div_nonneg by lia.
    repeat (split; [reflexivity | ]).
    intros evs c'' Hrun Hvis.
    refine (proj2 (timer_inv_run _ _ _ _ Hrun Hvis)).
    intros _. fields. rewrite Z.quot_div_nonneg by lia.
    split; [lia | reflexivity].
Qed.

(** C2 (amended): a show event is defined exactly when [fps_] is not zero;
    it then leaves the widget visible and the timer started with interval
    [1000 / fps_], and calls [AddBufferConsumer] once on the engine when
    one is set and on nothing when [engine_] is null.  A hide event is
    always defined; it leaves the widget hidden and the timer stopped, and
    calls [RemoveBufferConsumer] once on the engine when one is set and on
    nothing when [engine_] is null. *)
Theorem show_starts_and_hide_stops (c : VisualisationContainer) :
  match step Show c with
  | Ok c' =>
      fps_ c <> 0 /\
      isVisible c' = true /\
      update_timer_ c' = Some (1000 ÷ fps_ c') /\
      match engine_ c with
      | Some e =>
          engine_calls c' = AddBufferConsumer e :: engine_calls c /\
          consumer_count e (engine_calls c') = S (consumer_count e (engine_calls c))
      | None => engine_calls c' = engine_calls c
      end
  | Undefined why => fps_ c = 0 /\ why = DivisionByZero
  end /\
  match step Hide c with
  | Ok c' =>
      isVisible c' = false /\
      update_timer_ c' = None /\
      match engine_ c with
      | Some e =>
          engine_calls c' = RemoveBufferConsumer e :: engine_calls c /\
          consumer_count e (engine_calls c') = 0%nat
      | None => engine_calls c' = engine_calls c
      end
  | Undefined _ => False
  end.
Proof.
  split.
  - pose proof (step_Show_effect c) as Hshow.
    destruct (step Show c) as [c' | why]; [ | exact Hshow].
    destruct Hshow as (Hne & Hvis & Hfps & Htimer & _ & Hcalls).
    rewrite Hfps. repeat (split; [assumption | ]).
    destruct (engine_ c) as [e | ]; [ | exact Hcalls].
    split; [exact Hcalls | ]. rewrite Hcalls. apply consumer_count_add.
  - destruct (step_Hide_effect c) as (c' & -> & Hvis & _ & Htimer & _ & Hcalls).
    repeat (split; [assumption | ]).
    destruct (engine_ c) as [e | ]; [ | exact Hcalls].
    split; [exact Hcalls | ]. rewrite Hcalls. apply consumer_count_remove.
Qed.

(** C3 (amended): take any run from the constructor in which a show event
    reaches a hidden widget, a hide event a visible one, and [SetEngine]
    is not called on a visible widget that already has an engine.  Then on
    every engine the calls alternate, starting with [AddBufferConsumer], so
    the scene is never subscribed twice at a time, and the engine that
    holds the scene is the current one of a visible widget.  The next show
    event, if defined, makes exactly one call of [AddBufferConsumer] when
    an engine is set and none otherwise, and the next hide event exactly
    one call of [RemoveBufferConsumer] when an engine is set and none
    otherwise. *)
Theorem subscriptions_are_paired
        (store : QSettings) (evs : list Event) (c : VisualisationContainer) :
  follows_protocol evs (VisualisationContainer_new store) = true ->
  run evs (VisualisationContainer_new store) = Ok c ->
  (forall e,
     pairing e (engine_calls c) =
       Some (isVisible c && bool_decide (engine_ c = Some e))) /\
  (forall e, (consumer_count e (engine_calls c) <= 1)%nat) /\
  match step Show c with
  | Ok c' =>
      engine_calls c' =
        match engine_ c with
        | Some e => AddBufferConsumer e :: engine_calls c
        | None => engine_calls c
        end
  | Undefined _ => fps_ c = 0
  end /\
  match step Hide c with
  | Ok c' =>
      engine_calls c' =
        match engine_ c with
        | Some e => RemoveBufferConsumer e :: engine_calls c
        | None => engine_calls c
        end
  | Undefined _ => False
  end.
Proof.
  intros Hproto Hrun.
  pose proof (engine_inv_run _ _ _ (engine_inv_new store) Hproto Hrun) as Hinv.
  split; [exact Hinv | split].
  - intros e. rewrite (pairing_consumer_count _ _ _ (Hinv e)).
    destruct (isVisible c && bool_decide (engine_ c = Some e)); lia.
  - split.
    + pose proof (step_Show_effect c) as Hshow.
      destruct (step Show c) as [c' | why]; [apply Hshow | apply Hshow].
    + destruct (step_Hide_effect c) as (c' & -> & _ & _ & _ & _ & Hcalls).
      exact Hcalls.
Qed.

(** C4 (amended): take any run from the constructor, with show and hide
    events in any order, in which [SetEngine] never replaces the engine of
    a visible widget (it is called on a hidden widget, or on one without
    engine, or with the engine the widget already has).  In every state
    such a run reaches, an engine holds the scene only if the widget is
    visible and the engine is the current one; so no engine holds it while
    the widget is hidden.  In such a state [SetEngine] on a hidden widget
    makes no call on the engine, and after a hide event no engine holds
    the scene. *)
Theorem registered_only_while_shown
        (store : QSettings) (evs : list Event) (c : VisualisationContainer) :
  never_replaces_engine evs (VisualisationContainer_new store) = true ->
  run evs (VisualisationContainer_new store) = Ok c ->
  (forall e,
     consumer_count e (engine_calls c) <> 0%nat ->
     isVisible c = true /\ engine_ c = Some e) /\
  (isVisible c = false -> forall e, consumer_count e (engine_calls c) = 0%nat) /\
  (isVisible c = false ->
   forall engine, SetEngine engine c = Ok (set_engine_ engine c)) /\
  (exists c',
     step Hide c = Ok c' /\ isVisible c' = false /\
     forall e, consumer_count e (engine_calls c') = 0%nat).
Proof.
  intros Hkeep Hrun.
  pose proof (held_by_current_engine_run _ _ _
                (held_by_current_engine_new store) Hkeep Hrun) as Hinv.
  assert (Hzero : forall c0,
             held_by_current_engine c0 -> isVisible c0 = false ->
             forall e, consumer_count e (engine_calls c0) = 0%nat).
  { intros c0 H0 Hvis e.
    destruct (Nat.eq_dec (consumer_count e (engine_calls c0)) 0%nat) as [Hz | Hnz];
      [exact Hz | ].
    destruct (H0 e Hnz) as [Hvis' _]. congruence. }
  split; [exact Hinv | split; [exact (Hzero c Hinv) | split]].
  - intros Hvis engine. unfold SetEngine. fields. rewrite Hvis. reflexivity.
  - destruct (step_Hide_effect c) as (c' & Hstep & Hvis & _ & _ & _ & _).
    exists c'. split; [exact Hstep | split; [exact Hvis | ]].
    apply Hzero; [ | exact Hvis].
    exact (held_by_current_engine_step Hide c c' Hinv eq_refl Hstep).
Qed.

(** C5: in every state the container can reach, a resize event to the
    size [sz] sets the rectangle of the scene to the one at (0, 0) of size
    [sz], resizes the overlay to [sz], and stores the blob of
    [saveGeometry()] under the key geometry of the group Visualisations. *)
Theorem resizeEvent_updates_scene_overlay_settings
        (store : QSettings) (evs : list Event) (c : VisualisationContainer)
        (sz : QSize) :
  run evs (VisualisationContainer_new store) = Ok c ->
  exists c',
    step (Resize sz) c = Ok c' /\
    widget_size c' = sz /\
    vis_sceneRect c' = {| rect_x := 0; rect_y := 0; rect_size := sz |} /\
    overlay_size c' = sz /\
    settings c' =
      <[("Visualisations", "geometry") :=
          VByteArray (saveGeometry sz (windowState c))]> (settings c).
Proof.
  intros Hrun. pose proof (run_scene_installed _ _ _ Hrun) as Hscene.
  eexists. split; [reflexivity | ].
  unfold resizeEvent, SizeChanged. fields. rewrite Hscene. fields.
  repeat split; reflexivity.
Qed.

(** C6: [ChangeOverlayOpacity v] passes [v] to the proxy of the overlay,
    and the cursor is the blank one exactly when [v < 0.5]; otherwise, and
    so whenever [v >= 0.5], the cursor is unset. *)
Theorem ChangeOverlayOpacity_cursor (v : qreal) (c : VisualisationContainer) :
  overlay_proxy_opacity (ChangeOverlayOpacity v c) = v /\
  (cursor (ChangeOverlayOpacity v c) = Some BlankCursor <-> qreal_lt v qreal_half = true) /\
  cursor (ChangeOverlayOpacity v c) =
    (if qreal_lt v qreal_half then Some BlankCursor else None) /\
  (if qreal_ge v qreal_half
   then cursor (ChangeOverlayOpacity v c) = None
   else True).
Proof.
  unfold ChangeOverlayOpacity.
  assert (Hge : qreal_ge v qreal_half = true -> qreal_lt v qreal_half = false).
  { destruct v as [q | [] | ]; cbn; try congruence.
    destruct (q ?= 1 # 2)%Q; congruence. }
  destruct (qreal_lt v qreal_half) eqn:Hlt; cbn.
  - repeat split; try reflexivity.
    destruct (qreal_ge v qreal_half); [ | exact I].
    specialize (Hge eq_refl). discriminate Hge.
  - repeat split; try reflexivity; try (intros H; discriminate H).
    destruct (qreal_ge v qreal_half); [reflexivity | exact I].
Qed.

(** C7: the constructor leaves in [fps_] the value stored under the key
    fps of the group Visualisations, and the default 35 when the store has
    no such key. *)
Theorem constructor_loads_fps (store : QSettings) :
  kDefaultFps = 35 /\
  fps_ (VisualisationContainer_new store) =
    match store !! ("Visualisations", "fps") with
    | None => 35
    | Some (VInt i) => i
    | Some (VByteArray b) => QByteArray_toInt b
    end.
Proof.
  split; [reflexivity | ].
  destruct (new_state store) as (_ & _ & _ & _ & _ & Hfps). rewrite Hfps.
  change (kSettingsGroup, "fps") with ("Visualisations", "fps").
  destruct (store !! ("Visualisations", "fps")) as [[i | b] | ]; reflexivity.
Qed.

(** C8: a double click is one call of [ToggleFullscreen] (and not zero or
    two: the state it returns differs from the one it got);
    [ToggleFullscreen] writes [windowState() ^ Qt::WindowFullScreen], which
    flips the bit of the full-screen flag and keeps every other bit and
    every other field; two calls in a row give the state back. *)
Theorem ToggleFullscreen_involution (c : VisualisationContainer) :
  mouseDoubleClickEvent c = ToggleFullscreen c /\
  mouseDoubleClickEvent c <> c /\
  ToggleFullscreen c =
    set_windowState (Z.lxor (windowState c) WindowFullScreen) c /\
  (forall n : Z,
     Z.testbit (windowState (ToggleFullscreen c)) n =
       if n =? 2 then negb (Z.testbit (windowState c) n)
       else Z.testbit (windowState c) n) /\
  ToggleFullscreen (ToggleFullscreen c) = c.
Proof.
  assert (Hbit : forall n : Z,
             Z.testbit (Z.lxor (windowState c) WindowFullScreen) n =
               if n =? 2 then negb (Z.testbit (windowState c) n)
               else Z.testbit (windowState c) n).
  { intros n. rewrite Z.lxor_spec. change WindowFullScreen with (2 ^ 2).
    destruct (Z.eqb_spec n 2) as [-> | Hne].
    - rewrite Z.pow2_bits_true by lia. apply xorb_true_r.
    - rewrite Z.pow2_bits_false by lia. apply xorb_false_r. }
  split; [reflexivity | ]. split; [ | split; [reflexivity | split]].
  - unfold mouseDoubleClickEvent, ToggleFullscreen. intros Heq.
    apply (f_equal (fun s => Z.testbit (windowState s) 2)) in Heq.
    cbn [windowState set_windowState] in Heq.
    rewrite (Hbit 2) in Heq. change (2 =? 2) with true in Heq. cbv iota in Heq.
    destruct (Z.testbit (windowState c) 2); discriminate Heq.
  - exact Hbit.
  - unfold ToggleFullscreen. destruct c. fields.
    rewrite Z.lxor_assoc, Z.lxor_nilpotent, Z.lxor_0_r. reflexivity.
Qed.

(** C9: the interval is computed by [1000 / fps_] without a test in
    [showEvent] and in [SetFps], and the constructor copies the stored
    value into [fps_] without a test.  So [showEvent] divides by zero
    exactly when [fps_] is zero and [SetFps] exactly when its argument is
    zero; a run from the constructor never divides by zero when the value
    loaded and every value passed to [SetFps] are not zero; it can when the
    value loaded is zero (a show event is enough), and it does at a call
    [SetFps(0)]. *)
Theorem division_defined_iff_fps_nonzero :
  (forall c, showEvent c = Undefined DivisionByZero <-> fps_ c = 0) /\
  (forall fps c, SetFps fps c = Undefined DivisionByZero <-> fps = 0) /\
  (forall ev c,
     step ev c = Undefined DivisionByZero <->
     (ev = Show /\ fps_ c = 0) \/ ev = CallSetFps 0) /\
  (forall store i,
     fps_ (VisualisationContainer_new (<[("Visualisations", "fps") := VInt i]> store)) = i) /\
  (forall store evs,
     fps_ (VisualisationContainer_new store) <> 0 ->
     forallb nonzero_fps evs = true ->
     run evs (VisualisationContainer_new store) <> Undefined DivisionByZero) /\
  (forall store,
     fps_ (VisualisationContainer_new store) = 0 ->
     run [Show] (VisualisationContainer_new store) = Undefined DivisionByZero) /\
  (forall store evs1 evs2 c,
     run evs1 (VisualisationContainer_new store) = Ok c ->
     run (evs1 ++ CallSetFps 0 :: evs2) (VisualisationContainer_new store) =
       Undefined DivisionByZero).
Proof.
  split; [ | split; [ | split; [ | split; [ | split; [ | split]]]]].
  - intros c. pose proof (step_division_by_zero Show c) as H.
    cbn [step] in H. split.
    + intros Hs. unfold showEvent in Hs.
      destruct (int_div 1000 (fps_ c)) as [msec | why] eqn:Hdiv; cbn [bind] in Hs.
      * fields. destruct (engine_ c); discriminate Hs.
      * apply int_div_fault in Hdiv. tauto.
    + intros Hz. unfold showEvent. rewrite Hz. reflexivity.
  - intros fps c. pose proof (step_division_by_zero (CallSetFps fps) c) as H.
    cbn [step] in H. rewrite H. split.
    + intros [[Hs _] | Hs]; [discriminate Hs | congruence].
    + intros ->. right. reflexivity.
  - exact step_division_by_zero.
  - intros store i. destruct (new_state (<[("Visualisations", "fps") := VInt i]> store))
      as (_ & _ & _ & _ & _ & ->).
    change (kSettingsGroup, "fps") with ("Visualisations", "fps").
    rewrite lookup_insert_eq. reflexivity.
  - intros store evs. apply run_no_division_by_zero.
  - intros store Hz. cbn [run].
    assert (Hs : step Show (VisualisationContainer_new store) =
                 Undefined DivisionByZero).
    { apply step_division_by_zero. left. split; [reflexivity | exact Hz]. }
    rewrite Hs. reflexivity.
  - intros store evs1 evs2 c Hrun. rewrite run_app, Hrun. reflexivity.
Qed.

(** C10: [SetFps] restarts the timer whatever the visibility.  On a
    hidden widget, a call with a non-zero argument leaves the widget hidden
    and the timer started, although in every hidden state that a run
    without [SetFps] reaches from the constructor the timer is stopped. *)
Theorem SetFps_on_hidden_widget_starts_timer
        (f : Z) (c : VisualisationContainer) :
  f <> 0 ->
  isVisible c = false ->
  (exists c',
     SetFps f c = Ok c' /\
     isVisible c' = false /\
     update_timer_ c' = Some (1000 ÷ f)) /\
  (forall store evs,
     forallb (fun ev => negb (is_CallSetFps ev)) evs = true ->
     run evs (VisualisationContainer_new store) = Ok c ->
     update_timer_ c = None).
Proof.
  intros Hne Hvis. split.
  - eexists. split; [apply SetFps_nonzero; exact Hne | ]. fields.
    split; [exact Hvis | reflexivity].
  - intros store evs Hevs Hrun.
    apply (run_invariant hidden_stopped (fun ev => negb (is_CallSetFps ev))
             hidden_stopped_step evs (VisualisationContainer_new store) c Hevs);
      [ | exact Hrun | exact Hvis].
    intros _. apply new_state.
Qed.

(** ** Further properties of the code *)

Lemma geometry_key_is_not_fps_key :
  (kSettingsGroup, "geometry") <> (kSettingsGroup, "fps").
Proof. intros Heq. discriminate Heq. Qed.

Lemma value_fps_setValue_geometry (v : QVariant) (s : QSettings) :
  value "fps" (setValue "geometry" v s) = value "fps" s.
Proof.
  unfold value, setValue. apply lookup_insert_ne. exact geometry_key_is_not_fps_key.
Qed.

Lemma value_fps_setValue_fps (v : QVariant) (s : QSettings) :
  value "fps" (setValue "fps" v s) = Some v.
Proof. unfold value, setValue. apply lookup_insert_eq. Qed.

(** The rest of what the constructor returns. *)
Lemma new_state_widget (store : QSettings) :
  widget_size (VisualisationContainer_new store) =
    match restoreGeometry (toByteArray (store !! (kSettingsGroup, "geometry"))) with
    | Some (sz, _) => sz
    | None => {| width := kDefaultWidth; height := kDefaultHeight |}
    end /\
  windowState (VisualisationContainer_new store) =
    match restoreGeometry (toByteArray (store !! (kSettingsGroup, "geometry"))) with
    | Some (_, ws) => ws
    | None => WindowNoState
    end /\
  vis_sceneRect (VisualisationContainer_new store) =
    {| rect_x := 0; rect_y := 0;
       rect_size := widget_size (VisualisationContainer_new store) |} /\
  overlay_size (VisualisationContainer_new store) =
    widget_size (VisualisationContainer_new store) /\
  overlay_proxy_opacity (VisualisationContainer_new store) = qreal_zero /\
  cursor (VisualisationContainer_new store) = Some BlankCursor /\
  settings (VisualisationContainer_new store) =
    setValue "geometry"
      (VByteArray (saveGeometry (widget_size (VisualisationContainer_new store))
                     (windowState (VisualisationContainer_new store))))
      store.
Proof.
  unfold VisualisationContainer_new, SizeChanged, ChangeOverlayOpacity.
  change (qreal_lt qreal_zero qreal_half) with true. cbv iota. fields.
  unfold value.
  destruct (restoreGeometry _) as [[sz ws] | ]; fields;
    repeat apply conj; reflexivity.
Qed.

Lemma fps_persisted_new (store : QSettings) :
  fps_persisted (VisualisationContainer_new store).
Proof.
  unfold fps_persisted.
  destruct (new_state store) as (_ & _ & _ & _ & _ & ->).
  destruct (new_state_widget store) as (_ & _ & _ & _ & _ & _ & ->).
  rewrite value_fps_setValue_geometry. reflexivity.
Qed.

Lemma fps_persisted_step (ev : Event) (c c' : VisualisationContainer) :
  fps_persisted c -> step ev c = Ok c' -> fps_persisted c'.
Proof.
  unfold fps_persisted. intros Hinv Hstep.
  step_inversion Hstep; rewrite ?value_fps_setValue_geometry, ?value_fps_setValue_fps;
    first [exact Hinv | reflexivity].
Qed.

Lemma layout_inv_step (ev : Event) (c c' : VisualisationContainer) :
  layout_inv c -> step ev c = Ok c' -> layout_inv c'.
Proof.
  unfold layout_inv. intros (Hscene & Hrect & Hoverlay) Hstep.
  step_inversion Hstep; repeat apply conj; congruence.
Qed.

Lemma cursor_inv_step (ev : Event) (c c' : VisualisationContainer) :
  cursor_inv c -> step ev c = Ok c' -> cursor_inv c'.
Proof.
  unfold cursor_inv. intros Hinv Hstep.
  step_inversion Hstep;
    first [exact Hinv | reflexivity
          | match goal with H : qreal_lt _ _ = _ |- _ => rewrite H; reflexivity end].
Qed.

(** An invariant of every step holds along every run. *)
Lemma run_preserves (P : VisualisationContainer -> Prop) :
  (forall ev c c', P c -> step ev c = Ok c' -> P c') ->
  forall evs c c', P c -> run evs c = Ok c' -> P c'.
Proof.
  intros Hstep evs c c' HP Hrun.
  apply (run_invariant P (fun _ => true)) with (evs := evs) (c := c);
    [ | apply forallb_true | exact HP | exact Hrun].
  intros ev c0 c1 _. apply Hstep.
Qed.

(** X1: the frame rate survives a restart.  In every state reached from
    the constructor, a container built on the current settings store
    starts with the current [fps_]. *)
Theorem fps_survives_restart
        (store : QSettings) (evs : list Event) (c : VisualisationContainer) :
  run evs (VisualisationContainer_new store) = Ok c ->
  fps_ (VisualisationContainer_new (settings c)) = fps_ c.
Proof.
  intros Hrun.
  destruct (new_state (settings c)) as (_ & _ & _ & _ & _ & ->).
  exact (run_preserves fps_persisted fps_persisted_step _ _ _
           (fps_persisted_new store) Hrun).
Qed.

(** X2: what a restart makes of the geometry saved at a resize.  A
    resize event stores the blob of [saveGeometry] for the new size and the
    current window state, and a container built on the settings store it
    leaves starts with the size and window state that [restoreGeometry]
    returns for that blob, whatever they are, and with 828 x 512 and no
    window state when the blob is rejected; its scene and overlay get that
    size.  In particular the size and window state survive the restart
    when [restoreGeometry] returns, for that blob, the size and window
    state it was saved from. *)
Theorem geometry_survives_restart (sz : QSize) (c : VisualisationContainer) :
  exists c',
    step (Resize sz) c = Ok c' /\
    settings c' !! ("Visualisations", "geometry") =
      Some (VByteArray (saveGeometry sz (windowState c))) /\
    match restoreGeometry (saveGeometry sz (windowState c)) with
    | Some (sz', ws') =>
        widget_size (VisualisationContainer_new (settings c')) = sz' /\
        windowState (VisualisationContainer_new (settings c')) = ws'
    | None =>
        widget_size (VisualisationContainer_new (settings c')) =
          {| width := 828; height := 512 |} /\
        windowState (VisualisationContainer_new (settings c')) = WindowNoState
    end /\
    vis_sceneRect (VisualisationContainer_new (settings c')) =
      {| rect_x := 0; rect_y := 0;
         rect_size := widget_size (VisualisationContainer_new (settings c')) |} /\
    overlay_size (VisualisationContainer_new (settings c')) =
      widget_size (VisualisationContainer_new (settings c')) /\
    (restoreGeometry (saveGeometry sz (windowState c)) = Some (sz, windowState c) ->
     widget_size (VisualisationContainer_new (settings c')) = sz /\
     windowState (VisualisationContainer_new (settings c')) = windowState c).
Proof.
  assert (Hstored : settings (resizeEvent (set_widget_size sz c))
                      !! (kSettingsGroup, "geometry") =
                    Some (VByteArray (saveGeometry sz (windowState c)))).
  { unfold resizeEvent, SizeChanged, setValue. fields.
    destruct (scene_installed c); fields; apply lookup_insert_eq. }
  exists (resizeEvent (set_widget_size sz c)). split; [reflexivity | ].
  split; [exact Hstored | ].
  destruct (new_state_widget (settings (resizeEvent (set_widget_size sz c))))
    as (Hsz & Hws & Hrect & Hoverlay & _).
  rewrite Hstored in Hsz, Hws. cbn [toByteArray] in Hsz, Hws.
  split; [ | split; [exact Hrect | split; [exact Hoverlay | ]]].
  - destruct (restoreGeometry (saveGeometry sz (windowState c))) as [[sz' ws'] | ];
      split; assumption.
  - intros Hrestore. rewrite Hrestore in Hsz, Hws. split; assumption.
Qed.

(** X3: what the constructor does with the stored geometry.  It takes the
    size and window state that [restoreGeometry] returns for the stored
    blob, and 828 x 512 with no window state when the blob is rejected; a
    store without the key gives the empty blob.  In both cases the scene
    and the overlay get the size of the widget, and the constructor writes
    the geometry back to the store. *)
Theorem constructor_restores_geometry_or_defaults (store : QSettings) :
  match
    restoreGeometry
      (match store !! ("Visualisations", "geometry") with
       | Some (VByteArray blob) => blob
       | Some (VInt i) => QByteArray_number i
       | None => EmptyString
       end)
  with
  | Some (sz, ws) =>
      widget_size (VisualisationContainer_new store) = sz /\
      windowState (VisualisationContainer_new store) = ws
  | None =>
      widget_size (VisualisationContainer_new store) =
        {| width := 828; height := 512 |} /\
      windowState (VisualisationContainer_new store) = WindowNoState
  end /\
  vis_sceneRect (VisualisationContainer_new store) =
    {| rect_x := 0; rect_y := 0;
       rect_size := widget_size (VisualisationContainer_new store) |} /\
  overlay_size (VisualisationContainer_new store) =
    widget_size (VisualisationContainer_new store) /\
  settings (VisualisationContainer_new store) =
    <[("Visualisations", "geometry") :=
        VByteArray (saveGeometry (widget_size (VisualisationContainer_new store))
                      (windowState (VisualisationContainer_new store)))]> store.
Proof.
  destruct (new_state_widget store) as (Hsz & Hws & Hrect & Hoverlay & _ & _ & Hstore).
  split; [ | split; [exact Hrect | split; [exact Hoverlay | exact Hstore]]].
  change (toByteArray (store !! (kSettingsGroup, "geometry")))
    with (match store !! ("Visualisations", "geometry") with
          | Some (VByteArray blob) => blob
          | Some (VInt i) => QByteArray_number i
          | None => EmptyString
          end) in Hsz, Hws.
  destruct (restoreGeometry _) as [[sz ws] | ]; split; assumption.
Qed.

(** X4: in every state reached from the constructor, the rectangle of the
    scene is the one at (0, 0) with the size of the widget, and the overlay
    has the size of the widget. *)
Theorem scene_and_overlay_track_widget_size
        (store : QSettings) (evs : list Event) (c : VisualisationContainer) :
  run evs (VisualisationContainer_new store) = Ok c ->
  vis_sceneRect c = {| rect_x := 0; rect_y := 0; rect_size := widget_size c |} /\
  overlay_size c = widget_size c.
Proof.
  intros Hrun.
  assert (Hnew : layout_inv (VisualisationContainer_new store)).
  { destruct (new_state store) as (_ & _ & _ & _ & Hscene & _).
    destruct (new_state_widget store) as (_ & _ & Hrect & Hoverlay & _).
    repeat apply conj; assumption. }
  apply (run_preserves layout_inv layout_inv_step _ _ _ Hnew Hrun).
Qed.

(** X5: the container writes two keys of the settings store and no other.
    In every state reached from the constructor, a key other than geometry
    and fps of the group Visualisations holds what the initial store held,
    the key geometry holds a byte array, and the key fps holds what the
    initial store held or the current [fps_]. *)
Theorem settings_written_are_geometry_and_fps
        (store : QSettings) (evs : list Event) (c : VisualisationContainer) :
  run evs (VisualisationContainer_new store) = Ok c ->
  (forall key,
     key <> ("Visualisations", "geometry") ->
     key <> ("Visualisations", "fps") ->
     settings c !! key = store !! key) /\
  (exists blob, settings c !! ("Visualisations", "geometry") = Some (VByteArray blob)) /\
  (settings c !! ("Visualisations", "fps") = store !! ("Visualisations", "fps") \/
   settings c !! ("Visualisations", "fps") = Some (VInt (fps_ c))).
Proof.
  intros Hrun.
  apply (run_preserves
           (fun c =>
              (forall key,
                 key <> ("Visualisations", "geometry") ->
                 key <> ("Visualisations", "fps") ->
                 settings c !! key = store !! key) /\
              (exists blob,
                 settings c !! ("Visualisations", "geometry") = Some (VByteArray blob)) /\
              (settings c !! ("Visualisations", "fps") = store !! ("Visualisations", "fps") \/
               settings c !! ("Visualisations", "fps") = Some (VInt (fps_ c)))))
    with (evs := evs) (c := VisualisationContainer_new store); [ | | exact Hrun].
  - intros ev c0 c1 (Hother & [blob Hgeo] & Hfps) Hstep.
    step_inversion Hstep; unfold setValue;
      change kSettingsGroup with "Visualisations";
      try (split; [exact Hother | split; [exists blob; exact Hgeo | exact Hfps]]).
    + split; [ | split].
      * intros key Hg Hf. rewrite lookup_insert_ne by congruence. apply Hother; assumption.
      * eexists. apply lookup_insert_eq.
      * rewrite lookup_insert_ne by discriminate. exact Hfps.
    + split; [ | split].
      * intros key Hg Hf. rewrite lookup_insert_ne by congruence. apply Hother; assumption.
      * eexists. apply lookup_insert_eq.
      * rewrite lookup_insert_ne by discriminate. exact Hfps.
    + split; [ | split].
      * intros key Hg Hf. rewrite lookup_insert_ne by congruence. apply Hother; assumption.
      * exists blob. rewrite lookup_insert_ne by discriminate. exact Hgeo.
      * right. apply lookup_insert_eq.
  - destruct (new_state_widget store) as (_ & _ & _ & _ & _ & _ & ->).
    unfold setValue. change kSettingsGroup with "Visualisations".
    split; [ | split].
    + intros key Hg Hf. apply lookup_insert_ne. congruence.
    + eexists. apply lookup_insert_eq.
    + left. apply lookup_insert_ne. discriminate.
Qed.

(** X6: in every state reached from the constructor, the cursor of the
    widget is the blank one exactly when the opacity last given to the
    proxy of the overlay is below 0.5, and is unset otherwise. *)
Theorem cursor_hidden_iff_overlay_transparent
        (store : QSettings) (evs : list Event) (c : VisualisationContainer) :
  run evs (VisualisationContainer_new store) = Ok c ->
  cursor c =
    (if qreal_lt (overlay_proxy_opacity c) qreal_half then Some BlankCursor else None) /\
  (cursor c = Some BlankCursor <-> qreal_lt (overlay_proxy_opacity c) qreal_half = true).
Proof.
  intros Hrun.
  assert (Hnew : cursor_inv (VisualisationContainer_new store)).
  { unfold cursor_inv. destruct (new_state_widget store) as (_ & _ & _ & _ & -> & -> & _).
    reflexivity. }
  pose proof (run_preserves cursor_inv cursor_inv_step _ _ _ Hnew Hrun) as Hinv.
  unfold cursor_inv in Hinv. split; [exact Hinv | ].
  rewrite Hinv. destruct (qreal_lt (overlay_proxy_opacity c) qreal_half).
  - split; reflexivity.
  - split; intros H; discriminate H.
Qed.

(** X7: from the constructor on, a visible container always has a
    non-zero [fps_] and its timer started with interval [1000 / fps_]. *)
Theorem visible_container_repaints_at_fps
        (store : QSettings) (evs : list Event) (c : VisualisationContainer) :
  run evs (VisualisationContainer_new store) = Ok c ->
  isVisible c = true ->
  fps_ c <> 0 /\ update_timer_ c = Some (1000 ÷ fps_ c).
Proof.
  intros Hrun. apply (timer_inv_run evs (VisualisationContainer_new store) c); [ | exact Hrun].
  intros Hvis. destruct (new_state store) as (_ & Hhidden & _). congruence.
Qed.

Lemma step_null_dereference (ev : Event) (c : VisualisationContainer) :
  step ev c = Undefined NullDereference <->
  ev = CallSetEngine None /\ isVisible c = true.
Proof.
  split.
  - destruct ev; cbn [step]; intros H; try discriminate H.
    + exfalso. unfold showEvent, call_AddBufferConsumer in H. fields.
      destruct (int_div 1000 (fps_ c)) as [msec | why] eqn:Hdiv; cbn [bind] in H.
      * fields. destruct (engine_ c); discriminate H.
      * apply int_div_fault in Hdiv as [_ ->]. discriminate H.
    + exfalso. unfold hideEvent, call_RemoveBufferConsumer in H. fields.
      destruct (engine_ c); discriminate H.
    + unfold SetEngine, call_AddBufferConsumer in H. fields.
      destruct (isVisible c); [ | discriminate H].
      destruct engine; [discriminate H | split; reflexivity].
    + exfalso. unfold SetFps in H. fields.
      destruct (int_div 1000 fps) as [msec | why] eqn:Hdiv; cbn [bind] in H;
        [discriminate H | ].
      apply int_div_fault in Hdiv as [_ ->]. discriminate H.
  - intros [-> Hvis]. cbn [step]. unfold SetEngine. fields. rewrite Hvis. reflexivity.
Qed.

Lemma run_no_null_dereference (evs : list Event) (c : VisualisationContainer) :
  forallb (fun ev => negb (sets_null_engine ev)) evs = true ->
  run evs c <> Undefined NullDereference.
Proof.
  revert c. induction evs as [ | ev evs IH]; intros c Hgood; cbn in *.
  - discriminate.
  - apply andb_prop in Hgood as [Hev Hevs].
    destruct (step ev c) as [c1 | why] eqn:Hs; cbn [bind].
    + apply IH. exact Hevs.
    + intros Hwhy. injection Hwhy as ->.
      apply step_null_dereference in Hs as [-> _]. discriminate Hev.
Qed.

(** X8: the only call through a null engine pointer is the one of
    [SetEngine] with a null argument on a visible widget; the guarded calls
    of the show and hide events never fail.  A run in which [SetEngine]
    never gets the null pointer does not dereference it. *)
Theorem null_engine_is_dereferenced_only_by_SetEngine :
  (forall ev c,
     step ev c = Undefined NullDereference <->
     ev = CallSetEngine None /\ isVisible c = true) /\
  (forall c, step Show c <> Undefined NullDereference) /\
  (forall c, step Hide c <> Undefined NullDereference) /\
  (forall evs c,
     forallb (fun ev => negb (sets_null_engine ev)) evs = true ->
     run evs c <> Undefined NullDereference).
Proof.
  split; [exact step_null_dereference | split; [ | split]].
  - intros c H. apply step_null_dereference in H as [H _]. discriminate H.
  - intros c H. apply step_null_dereference in H as [H _]. discriminate H.
  - exact run_no_null_dereference.
Qed.

(** X9: a run from the constructor is defined to its end when the frame
    rate loaded from the store is not zero, no call of [SetFps] passes
    zero and no call of [SetEngine] passes the null pointer. *)
Theorem run_is_defined (store : QSettings) (evs : list Event) :
  fps_ (VisualisationContainer_new store) <> 0 ->
  forallb nonzero_fps evs = true ->
  forallb (fun ev => negb (sets_null_engine ev)) evs = true ->
  exists c, run evs (VisualisationContainer_new store) = Ok c.
Proof.
  intros Hfps Hnz Hnn.
  destruct (run evs (VisualisationContainer_new store)) as [c | [ | ]] eqn:Hrun.
  - exists c. reflexivity.
  - exfalso. exact (run_no_division_by_zero _ _ Hfps Hnz Hrun).
  - exfalso. exact (run_no_null_dereference _ _ Hnn Hrun).
Qed.

(** X10: of two calls of [SetFps] in a row the second one wins: after a
    defined call [SetFps f], the call [SetFps g] gives what it would have
    given without the first call, in the state and in the settings store. *)
Theorem SetFps_last_call_wins (f g : Z) (c : VisualisationContainer) :
  f <> 0 ->
  bind (SetFps f c) (SetFps g) = SetFps g c.
Proof.
  intros Hf. rewrite (SetFps_nonzero f c Hf). cbn [bind].
  destruct (Z.eq_dec g 0) as [-> | Hg].
  - reflexivity.
  - rewrite !(SetFps_nonzero g _ Hg). f_equal.
    destruct c as [engine fps timer vis sz ws cur sc rect osz op st calls].
    cbv [set_update_timer_ set_settings set_fps_ setValue engine_ fps_
         update_timer_ isVisible widget_size windowState cursor scene_installed
         vis_sceneRect overlay_size overlay_proxy_opacity settings engine_calls].
    rewrite insert_insert_eq. reflexivity.
Qed.

(** X11: a show event followed by a hide event gives a hidden container
    back as it was, but for the two calls the engine has received: the
    timer is stopped again and no other field has changed. *)
Theorem show_then_hide_restores_hidden_state (c : VisualisationContainer) :
  fps_ c <> 0 ->
  isVisible c = false ->
  update_timer_ c = None ->
  run [Show; Hide] c =
    Ok (set_engine_calls
          (match engine_ c with
           | Some e => RemoveBufferConsumer e :: AddBufferConsumer e :: engine_calls c
           | None => engine_calls c
           end) c).
Proof.
  intros Hfps Hvis Htimer. cbn [run step].
  rewrite showEvent_nonzero by exact Hfps. fields.
  unfold hideEvent, call_RemoveBufferConsumer, QBasicTimer_stop.
  destruct c as [engine fps timer vis sz ws cur sc rect osz op st calls].
  fields. subst vis timer.
  destruct engine as [e | ]; reflexivity.
Qed.

(** X12: what the events leave alone.  Only show and hide events and
    [SetEngine] change the visibility, the engine or the calls it has
    received; only [SetFps] changes [fps_] and the stored frame rate; only
    show and hide events and [SetFps] touch the timer; only a double click
    and [ToggleFullscreen] change the window state; only a resize event
    changes the size of the widget, of the scene and of the overlay and the
    stored geometry; only a change of the overlay's opacity changes the
    opacity of the proxy and the cursor. *)
Theorem events_leave_other_fields_alone (ev : Event) (c c' : VisualisationContainer) :
  step ev c = Ok c' ->
  (if calls_engine ev then True
   else isVisible c' = isVisible c /\ engine_ c' = engine_ c /\
        engine_calls c' = engine_calls c) /\
  (if is_CallSetFps ev then True
   else fps_ c' = fps_ c /\ value "fps" (settings c') = value "fps" (settings c)) /\
  (if restarts_timer ev then True else update_timer_ c' = update_timer_ c) /\
  (if toggles_fullscreen ev then True else windowState c' = windowState c) /\
  (if is_Resize ev then True
   else widget_size c' = widget_size c /\ vis_sceneRect c' = vis_sceneRect c /\
        overlay_size c' = overlay_size c /\
        value "geometry" (settings c') = value "geometry" (settings c)) /\
  (if is_OverlayOpacityChanged ev then True
   else overlay_proxy_opacity c' = overlay_proxy_opacity c /\ cursor c' = cursor c).
Proof.
  intros Hstep.
  step_inversion Hstep;
    cbn [calls_engine is_CallSetFps restarts_timer toggles_fullscreen is_Resize
         is_OverlayOpacityChanged];
    rewrite ?value_fps_setValue_geometry;
    repeat apply conj; try exact I; try reflexivity.
  all: unfold value, setValue; apply lookup_insert_ne; discriminate.
Qed.

(** X13: the interval that [SetFps] passes to the timer for a positive
    frame rate lies between 0 and 1000 milliseconds; it is 0, a timer that
    fires as fast as it can, exactly for the rates above 1000, and 1000
    exactly for the rate 1. *)
Theorem SetFps_interval_bounds (f : Z) (c : VisualisationContainer) :
  0 < f ->
  exists c' msec,
    SetFps f c = Ok c' /\
    update_timer_ c' = Some msec /\
    0 <= msec <= 1000 /\
    (msec = 0 <-> 1000 < f) /\
    (msec = 1000 <-> f = 1).
Proof.
  intros Hpos. eexists. exists (1000 / f).
  split; [apply SetFps_nonzero; lia | ]. fields.
  rewrite Z.quot_div_nonneg by lia.
  split; [reflexivity | ].
  assert (Hlo : 0 <= 1000 / f) by (apply Z.div_pos; lia).
  assert (Hhi : 1000 / f <= 1000) by (apply Z.div_le_upper_bound; nia).
  split; [lia | split].
  - split.
    + intros Hz. apply Z.div_small_iff in Hz; lia.
    + intros Hbig. apply Z.div_small. lia.
  - split.
    + intros Hm. destruct (Z.eq_dec f 1) as [ | Hne]; [assumption | exfalso].
      assert (1000 / f <= 500) by (apply Z.div_le_upper_bound; lia). lia.
    + intros ->. reflexivity.
Qed.

Lemma build_fps_menu_group (fps : Z) :
  fps_group (build_fps_menu fps) =
    [ {| action_text := "Low (15 fps)"; action_checkable := true;
         action_checked := 15 =? fps |};
      {| action_text := "Medium (25 fps)"; action_checkable := true;
         action_checked := 25 =? fps |};
      {| action_text := "High (35 fps)"; action_checkable := true;
         action_checked := 35 =? fps |};
      {| action_text := "Super high (60 fps)"; action_checkable := true;
         action_checked := 60 =? fps |} ].
Proof. reflexivity. Qed.

Lemma build_fps_menu_mapper (fps : Z) (action : nat) :
  fps_mapper (build_fps_menu fps) !! action = [15; 25; 35; 60] !! action.
Proof.
  unfold build_fps_menu, AddMenuItem. cbn [fps_group fps_mapper length app].
  destruct action as [ | [ | [ | [ | action]]]].
  - rewrite !lookup_insert_ne by lia. rewrite lookup_insert_eq. reflexivity.
  - rewrite !lookup_insert_ne by lia. rewrite lookup_insert_eq. reflexivity.
  - rewrite lookup_insert_ne by lia. rewrite lookup_insert_eq. reflexivity.
  - rewrite lookup_insert_eq. reflexivity.
  - rewrite !lookup_insert_ne by lia. rewrite lookup_empty. reflexivity.
Qed.

(** X14: the Framerate menu of the constructor has the four actions Low,
    Medium, High and Super high, all checkable, mapped to 15, 25, 35 and
    60 in this order.  An action is checked exactly when its value is the
    frame rate the constructor has loaded, so at most one action is
    checked, and none when the frame rate is none of the four. *)
Theorem fps_menu_checks_loaded_rate (store : QSettings) :
  map action_text (fps_group (constructor_fps_menu store)) =
    ["Low (15 fps)"; "Medium (25 fps)"; "High (35 fps)"; "Super high (60 fps)"] /\
  map action_checkable (fps_group (constructor_fps_menu store)) =
    [true; true; true; true] /\
  (forall action val,
     fps_mapper (constructor_fps_menu store) !! action = Some val <->
     [15; 25; 35; 60] !! action = Some val) /\
  map action_checked (fps_group (constructor_fps_menu store)) =
    map (fun val => val =? fps_ (VisualisationContainer_new store)) [15; 25; 35; 60] /\
  (length (List.filter action_checked (fps_group (constructor_fps_menu store))) <= 1)%nat /\
  (List.filter action_checked (fps_group (constructor_fps_menu store)) = [] <->
   ~ In (fps_ (VisualisationContainer_new store)) [15; 25; 35; 60]).
Proof.
  unfold constructor_fps_menu.
  generalize (fps_ (VisualisationContainer_new store)) as fps. intros fps.
  split; [reflexivity | split; [reflexivity | split; [ | split; [ | split]]]].
  - intros action val. rewrite build_fps_menu_mapper. reflexivity.
  - reflexivity.
  - rewrite build_fps_menu_group. cbn -[Z.eqb].
    destruct (Z.eqb_spec 15 fps), (Z.eqb_spec 25 fps), (Z.eqb_spec 35 fps),
      (Z.eqb_spec 60 fps); cbn; lia.
  - rewrite build_fps_menu_group. cbn -[Z.eqb].
    destruct (Z.eqb_spec 15 fps), (Z.eqb_spec 25 fps), (Z.eqb_spec 35 fps),
      (Z.eqb_spec 60 fps); cbn; split; intros H; try discriminate H;
      try reflexivity; try (exfalso; apply H; tauto); intuition lia.
Qed.

(** X15: the menu round trip.  Triggering an action of the Framerate
    menu calls [SetFps] with the value of the action, which is defined,
    sets [fps_] and the interval of the timer; and in the menu that the
    constructor builds on the settings store left by that call, the action
    triggered is the one that is checked, and the only one. *)
Theorem triggered_fps_action_is_checked_after_restart
        (store : QSettings) (c : VisualisationContainer) (action : nat) (val : Z) :
  fps_mapper (constructor_fps_menu store) !! action = Some val ->
  exists c',
    trigger_fps_action action (constructor_fps_menu store) c = Ok c' /\
    fps_ c' = val /\
    update_timer_ c' = Some (1000 / val) /\
    map action_checked (fps_group (constructor_fps_menu (settings c'))) =
      map (fun other => bool_decide (other = action)) [0; 1; 2; 3]%nat.
Proof.
  intros Hmap. unfold trigger_fps_action. rewrite Hmap.
  unfold constructor_fps_menu in Hmap. rewrite build_fps_menu_mapper in Hmap.
  assert (Hpos : 0 < val).
  { destruct action as [ | [ | [ | [ | action]]]]; cbn in Hmap;
      try discriminate Hmap; injection Hmap as <-; lia. }
  assert (Hne : val <> 0) by lia.
  eexists. split; [apply (SetFps_nonzero val c Hne) | ]. fields.
  split; [reflexivity | split; [rewrite Z.quot_div_nonneg by lia; reflexivity | ]].
  unfold constructor_fps_menu.
  destruct (new_state (setValue "fps" (VInt val) (settings c))) as (_ & _ & _ & _ & _ & ->).
  change (setValue "fps" (VInt val) (settings c) !! (kSettingsGroup, "fps"))
    with (value "fps" (setValue "fps" (VInt val) (settings c))).
  rewrite value_fps_setValue_fps. cbn [default toInt].
  rewrite build_fps_menu_group.
  destruct action as [ | [ | [ | [ | action]]]]; cbn in Hmap;
    try discriminate Hmap; injection Hmap as <-; reflexivity.
Qed.

Lemma step_engine_calls (ev : Event) (c c' : VisualisationContainer) :
  step ev c = Ok c' ->
  exists new,
    engine_calls c' = new ++ engine_calls c /\
    (length new <= if calls_engine ev then 1 else 0)%nat.
Proof.
  intros Hstep.
  step_inversion Hstep; cbn [calls_engine];
    first [ exists []; split; [reflexivity | cbn; lia]
          | eexists [_]; split; [reflexivity | cbn; lia] ].
Qed.

(** X16: the record of the calls on the engines only grows, by at most
    one call for each show event, hide event and call of [SetEngine], and
    by none for the other events. *)
Theorem engine_calls_only_grow (evs : list Event) (c c' : VisualisationContainer) :
  run evs c = Ok c' ->
  exists new,
    engine_calls c' = new ++ engine_calls c /\
    (length new <= length (List.filter calls_engine evs))%nat.
Proof.
  revert c. induction evs as [ | ev evs IH]; intros c Hrun; cbn [run] in Hrun.
  - injection Hrun as <-. exists []. split; [reflexivity | cbn; lia].
  - destruct (step ev c) as [c1 | why] eqn:Hs; cbn [bind] in Hrun; [ | discriminate Hrun].
    destruct (step_engine_calls _ _ _ Hs) as (new1 & Hnew1 & Hlen1).
    destruct (IH c1 Hrun) as (new & Hnew & Hlen).
    exists (new ++ new1). split.
    + rewrite Hnew, Hnew1. apply app_assoc.
    + rewrite length_app. cbn [List.filter].
      destruct (calls_engine ev); cbn [length]; lia.
Qed.

Lemma ToggleFullscreen_twice (c : VisualisationContainer) :
  ToggleFullscreen (ToggleFullscreen c) = c.
Proof.
  unfold ToggleFullscreen. destruct c. fields.
  rewrite Z.lxor_assoc, Z.lxor_nilpotent, Z.lxor_0_r. reflexivity.
Qed.

(** X17: any number of double clicks in a row leaves the container as it
    was when the number is even, and as one call of [ToggleFullscreen]
    leaves it when the number is odd. *)
Theorem double_clicks_by_parity (n : nat) (c : VisualisationContainer) :
  run (repeat MouseDoubleClick n) c =
    Ok (if Nat.even n then c else ToggleFullscreen c).
Proof.
  revert c. induction n as [ | n IH]; intros c.
  - reflexivity.
  - cbn [repeat run step bind]. unfold mouseDoubleClickEvent. rewrite IH.
    rewrite Nat.even_succ, <- Nat.negb_even.
    destruct (Nat.even n); cbn [negb]; [reflexivity | ].
    rewrite ToggleFullscreen_twice. reflexivity.
Qed.

(** X18: of two resize events in a row, and of two changes of the
    overlay's opacity in a row, the second one wins: the state and the
    settings store are what the second event alone would have left. *)
Theorem last_resize_and_last_opacity_win
        (sz1 sz2 : QSize) (v1 v2 : qreal) (c : VisualisationContainer) :
  run [Resize sz1; Resize sz2] c = run [Resize sz2] c /\
  run [OverlayOpacityChanged v1; OverlayOpacityChanged v2] c =
    run [OverlayOpacityChanged v2] c.
Proof.
  destruct c as [engine fps timer vis sz ws cur sc rect osz op st calls].
  split; cbn [run step bind]; f_equal.
  - unfold resizeEvent, SizeChanged, setValue. fields.
    destruct sc; fields; rewrite insert_insert_eq; reflexivity.
  - unfold ChangeOverlayOpacity. fields.
    destruct (qreal_lt v1 qreal_half), (qreal_lt v2 qreal_half); reflexivity.
Qed.

End Properties.

(** * The model at work *)

#[local] Existing Instance sample_toolkit.

(** ** The methods on small inputs *)

Example interval_at_35_fps :
  update_timer_ (state_after [Show] fresh_container) = Some 28.
Proof. vm_compute. reflexivity. Qed.

Example interval_truncates :
  int_div 1000 60 = Ok 16 /\ int_div 1000 (-60) = Ok (-16) /\
  int_div 1000 2000 = Ok 0 /\ int_div 1000 0 = Undefined DivisionByZero.
Proof. repeat apply conj; reflexivity. Qed.

Example constructor_on_empty_store :
  fps_ fresh_container = 35 /\
  widget_size fresh_container = {| width := 828; height := 512 |} /\
  overlay_size fresh_container = {| width := 828; height := 512 |} /\
  cursor fresh_container = Some BlankCursor /\
  value "geometry" (settings fresh_container) = Some (VByteArray "geometry").
Proof. repeat apply conj; vm_compute; reflexivity. Qed.

Example constructor_on_stored_fps :
  fps_ (VisualisationContainer_new (<[("Visualisations", "fps") := VInt 60]> ∅)) = 60.
Proof. vm_compute. reflexivity. Qed.

Example opacity_below_half_hides_cursor :
  cursor (ChangeOverlayOpacity (Finite (49 # 100)) fresh_container) = Some BlankCursor /\
  cursor (ChangeOverlayOpacity qreal_half fresh_container) = None /\
  cursor (ChangeOverlayOpacity (Finite 1) fresh_container) = None /\
  cursor (ChangeOverlayOpacity NaN fresh_container) = None.
Proof. repeat apply conj; vm_compute; reflexivity. Qed.

Example fullscreen_of_maximized_window :
  Z.lxor WindowMaximized WindowFullScreen = 6 /\
  Z.lxor 6 WindowFullScreen = WindowMaximized.
Proof. split; reflexivity. Qed.

Example SetEngine_null_on_visible_widget :
  run [Show; CallSetEngine None] fresh_container = Undefined NullDereference.
Proof. vm_compute. reflexivity. Qed.

Example SetFps_zero_divides_by_zero :
  run [Show; CallSetFps 0] fresh_container = Undefined DivisionByZero.
Proof. vm_compute. reflexivity. Qed.

Example stored_zero_fps_divides_on_show :
  run [Show] (VisualisationContainer_new (<[("Visualisations", "fps") := VInt 0]> ∅)) =
    Undefined DivisionByZero.
Proof. vm_compute. reflexivity. Qed.

(** ** The theorems with hypotheses, at these inputs *)

(** [SetFps 25] on the container built on the empty store. *)
Lemma SetFps_sets_fps_and_restarts_timer_witness :
  0 < 25 /\
  exists c',
    SetFps 25 fresh_container = Ok c' /\
    fps_ c' = 25 /\
    settings c' =
      <[("Visualisations", "fps") := VInt 25]> (settings fresh_container) /\
    update_timer_ c' = Some 40.
Proof.
  assert (Hpos : 0 < 25) by lia.
  split; [exact Hpos | ].
  destruct (SetFps_sets_fps_and_restarts_timer (toolkit := sample_toolkit)
              25 fresh_container Hpos)
    as (c' & Hdef & Hfps & Hstore & Htimer & _).
  exists c'. repeat apply conj; assumption.
Defined.

(** A resize to 640 x 480 after the engine is set, the widget shown and
    the frame rate changed. *)
Lemma resizeEvent_updates_scene_overlay_settings_witness :
  run [CallSetEngine (Some 7%nat); Show; CallSetFps 25] fresh_container =
    Ok (state_after [CallSetEngine (Some 7%nat); Show; CallSetFps 25] fresh_container) /\
  exists c',
    step (Resize {| width := 640; height := 480 |})
      (state_after [CallSetEngine (Some 7%nat); Show; CallSetFps 25] fresh_container) =
      Ok c' /\
    vis_sceneRect c' =
      {| rect_x := 0; rect_y := 0;
         rect_size := {| width := 640; height := 480 |} |} /\
    overlay_size c' = {| width := 640; height := 480 |} /\
    value "geometry" (settings c') = Some (VByteArray "geometry").
Proof.
  assert (Hrun : run [CallSetEngine (Some 7%nat); Show; CallSetFps 25] fresh_container =
                 Ok (state_after [CallSetEngine (Some 7%nat); Show; CallSetFps 25]
                       fresh_container))
    by (vm_compute; reflexivity).
  split; [exact Hrun | ].
  destruct (resizeEvent_updates_scene_overlay_settings (toolkit := sample_toolkit)
              ∅ _ _ {| width := 640; height := 480 |} Hrun)
    as (c' & Hstep & _ & Hrect & Hoverlay & Hstore).
  exists c'. repeat apply conj; try assumption.
  unfold value. rewrite Hstore. apply lookup_insert_eq.
Defined.

(** The calls that [sample_events] makes on the engines 7 and 9. *)
Lemma subscriptions_are_paired_witness :
  follows_protocol sample_events fresh_container = true /\
  run sample_events fresh_container =
    Ok (state_after sample_events fresh_container) /\
  engine_calls (state_after sample_events fresh_container) =
    [AddBufferConsumer 9%nat; RemoveBufferConsumer 9%nat; AddBufferConsumer 9%nat;
     RemoveBufferConsumer 7%nat; AddBufferConsumer 7%nat] /\
  forall e,
    pairing e (engine_calls (state_after sample_events fresh_container)) =
      Some (bool_decide (Some 9%nat = Some e)) /\
    (consumer_count e (engine_calls (state_after sample_events fresh_container)) <= 1)%nat.
Proof.
  assert (Hproto : follows_protocol sample_events fresh_container = true)
    by (vm_compute; reflexivity).
  assert (Hrun : run sample_events fresh_container =
                 Ok (state_after sample_events fresh_container))
    by (vm_compute; reflexivity).
  split; [exact Hproto | split; [exact Hrun | split; [vm_compute; reflexivity | ]]].
  destruct (subscriptions_are_paired (toolkit := sample_toolkit)
              ∅ sample_events _ Hproto Hrun) as (Hpair & Hcount & _).
  assert (Hvis : isVisible (state_after sample_events fresh_container) = true)
    by (vm_compute; reflexivity).
  assert (Heng : engine_ (state_after sample_events fresh_container) = Some 9%nat)
    by (vm_compute; reflexivity).
  intros e. split; [ | apply Hcount].
  rewrite Hpair, Hvis, Heng. apply eq_refl.
Defined.

(** A run with two show events in a row, the engine given again to the
    visible widget and two hide events: no engine holds the scene at its
    end. *)
Lemma registered_only_while_shown_witness :
  never_replaces_engine engine_kept fresh_container = true /\
  run engine_kept fresh_container = Ok (state_after engine_kept fresh_container) /\
  isVisible (state_after engine_kept fresh_container) = false /\
  forall e,
    consumer_count e (engine_calls (state_after engine_kept fresh_container)) = 0%nat.
Proof.
  assert (Hkeep : never_replaces_engine engine_kept fresh_container = true)
    by (vm_compute; reflexivity).
  assert (Hrun : run engine_kept fresh_container =
                 Ok (state_after engine_kept fresh_container))
    by (vm_compute; reflexivity).
  assert (Hvis : isVisible (state_after engine_kept fresh_container) = false)
    by (vm_compute; reflexivity).
  split; [exact Hkeep | split; [exact Hrun | split; [exact Hvis | ]]].
  destruct (registered_only_while_shown (toolkit := sample_toolkit)
              ∅ _ _ Hkeep Hrun) as (_ & Hhidden & _).
  exact (Hhidden Hvis).
Defined.

(** [SetFps 25] on the hidden container that the constructor returns. *)
Lemma SetFps_on_hidden_widget_starts_timer_witness :
  25 <> 0 /\
  isVisible fresh_container = false /\
  update_timer_ fresh_container = None /\
  exists c',
    SetFps 25 fresh_container = Ok c' /\
    isVisible c' = false /\
    update_timer_ c' = Some 40.
Proof.
  assert (Hne : 25 <> 0) by lia.
  assert (Hvis : isVisible fresh_container = false) by (vm_compute; reflexivity).
  destruct (SetFps_on_hidden_widget_starts_timer (toolkit := sample_toolkit)
              25 fresh_container Hne Hvis) as (Hset & Hstopped).
  split; [exact Hne | split; [exact Hvis | split; [ | exact Hset]]].
  exact (Hstopped ∅ [] eq_refl eq_refl).
Defined.

(** ** Where the claims as written fail *)

(** C2 as written fails: the container built by the constructor has no
    engine, and a show event leaves it visible with no call made on any
    engine; and when the store holds 0 for fps, the show event divides by
    zero instead of starting the timer. *)
Lemma show_without_engine_subscribes_nothing :
  (exists c',
     step Show fresh_container = Ok c' /\
     isVisible c' = true /\
     engine_ c' = None /\
     engine_calls c' = [] /\
     forall e, consumer_count e (engine_calls c') = 0%nat) /\
  step Show (VisualisationContainer_new (<[("Visualisations", "fps") := VInt 0]> ∅)) =
    Undefined DivisionByZero.
Proof.
  split; [ | vm_compute; reflexivity].
  exists (state_after [Show] fresh_container).
  split; [vm_compute; reflexivity | ].
  split; [vm_compute; reflexivity | ].
  split; [vm_compute; reflexivity | ].
  assert (Hcalls : engine_calls (state_after [Show] fresh_container) = [])
    by (vm_compute; reflexivity).
  split; [exact Hcalls | ]. intros e. rewrite Hcalls. reflexivity.
Qed.

(** C3 as written fails: [SetEngine] on a visible widget that already has
    the engine subscribes the scene a second time, with no call of
    [RemoveBufferConsumer] in between; and the show event of a container
    without engine makes no call at all. *)
Lemma SetEngine_on_visible_widget_subscribes_again :
  (exists c,
     run engine_set_twice fresh_container = Ok c /\
     isVisible c = true /\
     engine_calls c = [AddBufferConsumer 1%nat; AddBufferConsumer 1%nat] /\
     consumer_count 1%nat (engine_calls c) = 2%nat /\
     pairing 1%nat (engine_calls c) = None) /\
  (exists c,
     run [Show] fresh_container = Ok c /\
     isVisible fresh_container = false /\
     isVisible c = true /\
     engine_calls c = engine_calls fresh_container).
Proof.
  split.
  - exists (state_after engine_set_twice fresh_container).
    repeat apply conj; vm_compute; reflexivity.
  - exists (state_after [Show] fresh_container).
    repeat apply conj; vm_compute; reflexivity.
Qed.

(** C4 as written fails: when the engine of a visible widget is replaced,
    the hide event unsubscribes the scene from the new engine only, and the
    first engine still holds it while the widget is hidden. *)
Lemma replaced_engine_keeps_scene_while_hidden :
  exists c,
    run engine_replaced fresh_container = Ok c /\
    isVisible c = false /\
    engine_calls c =
      [RemoveBufferConsumer 2%nat; AddBufferConsumer 2%nat; AddBufferConsumer 1%nat] /\
    consumer_count 1%nat (engine_calls c) = 1%nat /\
    pairing 1%nat (engine_calls c) = Some true.
Proof.
  exists (state_after engine_replaced fresh_container).
  repeat apply conj; vm_compute; reflexivity.
Qed.

(** ** The further properties with hypotheses, at these inputs *)

(** After [sample_events], which set the frame rate to 25, a restart loads 25. *)
Lemma fps_survives_restart_witness :
  run sample_events fresh_container = Ok (state_after sample_events fresh_container) /\
  fps_ (state_after sample_events fresh_container) = 25 /\
  fps_ (VisualisationContainer_new (settings (state_after sample_events fresh_container))) = 25.
Proof.
  assert (Hrun : run sample_events fresh_container =
                 Ok (state_after sample_events fresh_container))
    by (vm_compute; reflexivity).
  assert (Hfps : fps_ (state_after sample_events fresh_container) = 25)
    by (vm_compute; reflexivity).
  split; [exact Hrun | split; [exact Hfps | ]].
  rewrite (fps_survives_restart (toolkit := sample_toolkit) ∅ sample_events _ Hrun).
  exact Hfps.
Defined.

(** A resize to 640 x 480 with a toolkit that restores the blob it saves:
    the restarted container has 640 x 480. *)
Lemma geometry_survives_restart_witness :
  @restoreGeometry fixed_geometry_toolkit
    (@saveGeometry fixed_geometry_toolkit {| width := 640; height := 480 |}
       (windowState plain_window)) =
    Some ({| width := 640; height := 480 |}, windowState plain_window) /\
  widget_size plain_window = {| width := 828; height := 512 |} /\
  exists c',
    @step fixed_geometry_toolkit (Resize {| width := 640; height := 480 |}) plain_window =
      Ok c' /\
    widget_size (@VisualisationContainer_new fixed_geometry_toolkit (settings c')) =
      {| width := 640; height := 480 |}.
Proof.
  assert (Hrestore :
            @restoreGeometry fixed_geometry_toolkit
              (@saveGeometry fixed_geometry_toolkit {| width := 640; height := 480 |}
                 (windowState plain_window)) =
              Some ({| width := 640; height := 480 |}, windowState plain_window))
    by (vm_compute; reflexivity).
  split; [exact Hrestore | split; [vm_compute; reflexivity | ]].
  destruct (geometry_survives_restart (toolkit := fixed_geometry_toolkit)
              {| width := 640; height := 480 |} plain_window)
    as (c' & Hstep & _ & _ & _ & _ & Hround).
  exists c'. split; [exact Hstep | exact (proj1 (Hround Hrestore))].
Defined.

(** The same resize with a toolkit that accepts the blob and returns
    another size: the restarted container has the size the toolkit
    returned, 100 x 100, and not the 640 x 480 of the resize. *)
Example restart_takes_what_the_toolkit_restores :
  exists c',
    @step lossy_geometry_toolkit (Resize {| width := 640; height := 480 |})
      (@VisualisationContainer_new lossy_geometry_toolkit ∅) = Ok c' /\
    widget_size c' = {| width := 640; height := 480 |} /\
    widget_size (@VisualisationContainer_new lossy_geometry_toolkit (settings c')) =
      {| width := 100; height := 100 |}.
Proof.
  exists (@resizeEvent lossy_geometry_toolkit
            (set_widget_size {| width := 640; height := 480 |}
               (@VisualisationContainer_new lossy_geometry_toolkit ∅))).
  repeat apply conj; vm_compute; reflexivity.
Qed.

(** The sizes after [sample_events], whose resize event gives 640 x 480. *)
Lemma scene_and_overlay_track_widget_size_witness :
  run sample_events fresh_container = Ok (state_after sample_events fresh_container) /\
  widget_size (state_after sample_events fresh_container) =
    {| width := 640; height := 480 |} /\
  vis_sceneRect (state_after sample_events fresh_container) =
    {| rect_x := 0; rect_y := 0;
       rect_size := widget_size (state_after sample_events fresh_container) |} /\
  overlay_size (state_after sample_events fresh_container) =
    widget_size (state_after sample_events fresh_container).
Proof.
  assert (Hrun : run sample_events fresh_container =
                 Ok (state_after sample_events fresh_container))
    by (vm_compute; reflexivity).
  split; [exact Hrun | split; [vm_compute; reflexivity | ]].
  exact (scene_and_overlay_track_widget_size (toolkit := sample_toolkit)
           ∅ sample_events _ Hrun).
Defined.

(** The settings after [sample_events] on a store with a key of another
    group. *)
Lemma settings_written_are_geometry_and_fps_witness :
  run sample_events (VisualisationContainer_new {[("Player", "volume") := VInt 50]}) =
    Ok (state_after sample_events
          (VisualisationContainer_new {[("Player", "volume") := VInt 50]})) /\
  settings (state_after sample_events
              (VisualisationContainer_new {[("Player", "volume") := VInt 50]}))
    !! ("Player", "volume") = Some (VInt 50).
Proof.
  assert (Hrun : run sample_events
                   (VisualisationContainer_new {[("Player", "volume") := VInt 50]}) =
                 Ok (state_after sample_events
                       (VisualisationContainer_new {[("Player", "volume") := VInt 50]})))
    by (vm_compute; reflexivity).
  split; [exact Hrun | ].
  destruct (settings_written_are_geometry_and_fps (toolkit := sample_toolkit)
              {[("Player", "volume") := VInt 50]} sample_events _ Hrun)
    as (Hother & _).
  rewrite Hother by discriminate. apply lookup_singleton_eq.
Defined.

(** The cursor after [safe_events], which end with the overlay at 3/4. *)
Lemma cursor_hidden_iff_overlay_transparent_witness :
  run safe_events fresh_container = Ok (state_after safe_events fresh_container) /\
  overlay_proxy_opacity (state_after safe_events fresh_container) = Finite (3 # 4) /\
  cursor (state_after safe_events fresh_container) = None.
Proof.
  assert (Hrun : run safe_events fresh_container =
                 Ok (state_after safe_events fresh_container))
    by (vm_compute; reflexivity).
  assert (Hop : overlay_proxy_opacity (state_after safe_events fresh_container) =
                Finite (3 # 4))
    by (vm_compute; reflexivity).
  split; [exact Hrun | split; [exact Hop | ]].
  destruct (cursor_hidden_iff_overlay_transparent (toolkit := sample_toolkit)
              ∅ safe_events _ Hrun) as (Hcursor & _).
  rewrite Hcursor, Hop. apply eq_refl.
Defined.

(** [sample_events] end with a show event at 25 frames a second. *)
Lemma visible_container_repaints_at_fps_witness :
  run sample_events fresh_container = Ok (state_after sample_events fresh_container) /\
  isVisible (state_after sample_events fresh_container) = true /\
  fps_ (state_after sample_events fresh_container) <> 0 /\
  update_timer_ (state_after sample_events fresh_container) =
    Some (1000 ÷ fps_ (state_after sample_events fresh_container)).
Proof.
  assert (Hrun : run sample_events fresh_container =
                 Ok (state_after sample_events fresh_container))
    by (vm_compute; reflexivity).
  assert (Hvis : isVisible (state_after sample_events fresh_container) = true)
    by (vm_compute; reflexivity).
  split; [exact Hrun | split; [exact Hvis | ]].
  exact (visible_container_repaints_at_fps (toolkit := sample_toolkit)
           ∅ sample_events _ Hrun Hvis).
Defined.

(** [safe_events] on the container built on the empty store. *)
Lemma run_is_defined_witness :
  fps_ fresh_container <> 0 /\
  forallb nonzero_fps safe_events = true /\
  forallb (fun ev => negb (sets_null_engine ev)) safe_events = true /\
  exists c, run safe_events fresh_container = Ok c.
Proof.
  assert (Hfps : fps_ fresh_container <> 0) by (vm_compute; discriminate).
  assert (Hnz : forallb nonzero_fps safe_events = true) by (vm_compute; reflexivity).
  assert (Hnn : forallb (fun ev => negb (sets_null_engine ev)) safe_events = true)
    by (vm_compute; reflexivity).
  split; [exact Hfps | split; [exact Hnz | split; [exact Hnn | ]]].
  exact (run_is_defined (toolkit := sample_toolkit) ∅ safe_events Hfps Hnz Hnn).
Defined.

(** [SetFps 15] then [SetFps 60]. *)
Lemma SetFps_last_call_wins_witness :
  15 <> 0 /\
  bind (SetFps 15 fresh_container) (SetFps 60) = SetFps 60 fresh_container.
Proof.
  assert (Hne : 15 <> 0) by lia.
  split; [exact Hne | ].
  exact (SetFps_last_call_wins 15 60 fresh_container Hne).
Defined.

(** A show and a hide event on the container after [SetEngine]. *)
Lemma show_then_hide_restores_hidden_state_witness :
  fps_ (state_after [CallSetEngine (Some 7%nat)] fresh_container) <> 0 /\
  isVisible (state_after [CallSetEngine (Some 7%nat)] fresh_container) = false /\
  update_timer_ (state_after [CallSetEngine (Some 7%nat)] fresh_container) = None /\
  run [Show; Hide] (state_after [CallSetEngine (Some 7%nat)] fresh_container) =
    Ok (set_engine_calls
          [RemoveBufferConsumer 7%nat; AddBufferConsumer 7%nat]
          (state_after [CallSetEngine (Some 7%nat)] fresh_container)).
Proof.
  assert (Hfps : fps_ (state_after [CallSetEngine (Some 7%nat)] fresh_container) <> 0)
    by (vm_compute; discriminate).
  assert (Hvis : isVisible (state_after [CallSetEngine (Some 7%nat)] fresh_container) = false)
    by (vm_compute; reflexivity).
  assert (Htimer : update_timer_ (state_after [CallSetEngine (Some 7%nat)] fresh_container) =
                   None)
    by (vm_compute; reflexivity).
  split; [exact Hfps | split; [exact Hvis | split; [exact Htimer | ]]].
  rewrite (show_then_hide_restores_hidden_state (toolkit := sample_toolkit) _
             Hfps Hvis Htimer).
  vm_compute. reflexivity.
Defined.

(** [SetFps 25] leaves the visibility, the engine and the window alone. *)
Lemma events_leave_other_fields_alone_witness :
  step (CallSetFps 25) fresh_container =
    Ok (state_after [CallSetFps 25] fresh_container) /\
  isVisible (state_after [CallSetFps 25] fresh_container) = isVisible fresh_container /\
  engine_calls (state_after [CallSetFps 25] fresh_container) =
    engine_calls fresh_container /\
  windowState (state_after [CallSetFps 25] fresh_container) = windowState fresh_container.
Proof.
  assert (Hstep : step (CallSetFps 25) fresh_container =
                  Ok (state_after [CallSetFps 25] fresh_container))
    by (vm_compute; reflexivity).
  split; [exact Hstep | ].
  destruct (events_leave_other_fields_alone (toolkit := sample_toolkit) _ _ _ Hstep)
    as ((Hvis & _ & Hcalls) & _ & _ & Hws & _).
  split; [exact Hvis | split; [exact Hcalls | exact Hws]].
Defined.

(** [SetFps 2000] starts a timer of interval 0. *)
Lemma SetFps_interval_bounds_witness :
  0 < 2000 /\
  exists c', SetFps 2000 fresh_container = Ok c' /\ update_timer_ c' = Some 0.
Proof.
  assert (Hpos : 0 < 2000) by lia.
  split; [exact Hpos | ].
  destruct (SetFps_interval_bounds 2000 fresh_container Hpos)
    as (c' & msec & Hdef & Htimer & _ & Hzero & _).
  exists c'. split; [exact Hdef | ].
  rewrite Htimer. f_equal. apply Hzero. lia.
Defined.

(** The second action of the menu, Medium (25 fps). *)
Lemma triggered_fps_action_is_checked_after_restart_witness :
  fps_mapper (constructor_fps_menu ∅) !! 1%nat = Some 25 /\
  map action_checked (fps_group (constructor_fps_menu ∅)) = [false; false; true; false] /\
  exists c',
    trigger_fps_action 1 (constructor_fps_menu ∅) fresh_container = Ok c' /\
    fps_ c' = 25 /\
    map action_checked (fps_group (constructor_fps_menu (settings c'))) =
      [false; true; false; false].
Proof.
  assert (Hmap : fps_mapper (constructor_fps_menu ∅) !! 1%nat = Some 25)
    by (vm_compute; reflexivity).
  split; [exact Hmap | split; [vm_compute; reflexivity | ]].
  destruct (triggered_fps_action_is_checked_after_restart (toolkit := sample_toolkit)
              ∅ fresh_container 1%nat 25 Hmap)
    as (c' & Htrig & Hfps & _ & Hchecked).
  exists c'. split; [exact Htrig | split; [exact Hfps | exact Hchecked]].
Defined.

(** [sample_events] hold eight show events, hide events and calls of
    [SetEngine]; five calls on the engines are recorded. *)
Lemma engine_calls_only_grow_witness :
  run sample_events fresh_container = Ok (state_after sample_events fresh_container) /\
  length (List.filter calls_engine sample_events) = 8%nat /\
  exists new,
    engine_calls (state_after sample_events fresh_container) =
      new ++ engine_calls fresh_container /\
    (length new <= 8)%nat.
Proof.
  assert (Hrun : run sample_events fresh_container =
                 Ok (state_after sample_events fresh_container))
    by (vm_compute; reflexivity).
  assert (Hlen : length (List.filter calls_engine sample_events) = 8%nat)
    by (vm_compute; reflexivity).
  split; [exact Hrun | split; [exact Hlen | ]].
  destruct (engine_calls_only_grow (toolkit := sample_toolkit) _ _ _ Hrun)
    as (new & Hnew & Hbound).
  exists new. split; [exact Hnew | ]. rewrite <- Hlen. exact Hbound.
Defined.
